(** * Email classification workflow: model and verification

    Shallow embedding of
    [services/classifier-service/workflows/email_classifier.py] and of the
    part of [config/settings.py] it reads.

    - Python [str] is a list of Unicode code points ([N]).
    - Python [float] is IEEE-754 binary64, taken from the Standard Library's
      [spec_float] with its comparison functions.
    - Exceptions are values of [exn]; code that may raise returns [result].
    - Calls to the language model are a monad over a [World] that counts
      the calls made and records the graph nodes run.
    - What the module imports from outside the repository (the JSON
      decoder, [float] on a [str], the rendering of values, floats and
      exceptions as text, the chat model) is gathered in the class
      [Runtime]; the state graph of LangGraph is modelled as far as the
      module uses it.
    - Log lines are left out, except for the one that reads a local
      variable which may be unbound. *)

From Stdlib Require Import String Ascii.
From Stdlib Require Import ZArith NArith List Bool Lia.
From Stdlib Require Import Floats.SpecFloat.
Import ListNotations.

Set Warnings "-register-all".

(** [length] is the length of lists throughout. *)
Abbreviation length := List.length.

(** ** Python strings *)

Definition char : Type := N.
Definition str : Type := list char.

(** A literal written with ASCII characters. *)
Definition lit (s : string) : str :=
  map N_of_ascii (list_ascii_of_string s).

(** A literal in which the apostrophe stands for the double quote. *)
Definition dq (s : string) : str :=
  map (fun c => if N.eqb c 39 then 34%N else c) (lit s).

Definition char_eqb (a b : char) : bool := N.eqb a b.

Fixpoint str_eqb (a b : str) : bool :=
  match a, b with
  | [], [] => true
  | x :: a', y :: b' => char_eqb x y && str_eqb a' b'
  | _, _ => false
  end.

(** [str.isspace] on one code point (CPython's [_PyUnicode_IsWhitespace]). *)
Definition py_isspace (c : char) : bool :=
  ((9 <=? c) && (c <=? 13)            (* \t \n \v \f \r *)
   || (28 <=? c) && (c <=? 32)        (* FS GS RS US, space *)
   || (c =? 133) || (c =? 160)        (* NEL, NBSP *)
   || (c =? 5760)                     (* U+1680 *)
   || (8192 <=? c) && (c <=? 8202)    (* U+2000 .. U+200A *)
   || (c =? 8232) || (c =? 8233)      (* U+2028, U+2029 *)
   || (c =? 8239) || (c =? 8287)      (* U+202F, U+205F *)
   || (c =? 12288))%N.                (* U+3000 *)

(** [s.lstrip()], [s.rstrip()], [s.strip()] *)
Fixpoint lstrip (s : str) : str :=
  match s with
  | [] => []
  | c :: s' => if py_isspace c then lstrip s' else s
  end.

Definition rstrip (s : str) : str := rev (lstrip (rev s)).

Definition strip (s : str) : str := rstrip (lstrip s).

(** [s.startswith(p)], [s.endswith(p)] *)
Fixpoint startswith (s p : str) {struct p} : bool :=
  match p, s with
  | [], _ => true
  | _ :: _, [] => false
  | y :: p', x :: s' => char_eqb x y && startswith s' p'
  end.

Definition endswith (s p : str) : bool := startswith (rev s) (rev p).

(** [s[n:]] and [s[:-n]] *)
Definition slice_from (n : nat) (s : str) : str := skipn n s.
Definition slice_to_neg (n : nat) (s : str) : str :=
  firstn (length s - n) s.

(** ** Response normalizer *)

Definition fence : str := lit "```".
Definition fence_json : str := lit "```json".

(** [clean_json_response(content)] *)
Definition clean_json_response (content : str) : str :=
  let content := strip content in
  (* Remove markdown code blocks *)
  let content :=
    if startswith content fence_json then slice_from 7 content
    else if startswith content fence then slice_from 3 content
    else content in
  let content :=
    if endswith content fence then slice_to_neg 3 content
    else content in
  strip content.

(** ["\n".join(lines)] *)
Fixpoint join_lines (lines : list str) : str :=
  match lines with
  | [] => []
  | [l] => l
  | l :: ls => l ++ 10%N :: join_lines ls
  end.

(** The steps of [clean_json_response] between the two [strip] calls, named
    for the proofs: the opener is removed from the trimmed text, then the
    closing fence. *)
Definition remove_opener (s : str) : str :=
  if startswith s fence_json then slice_from 7 s
  else if startswith s fence then slice_from 3 s
  else s.

Definition remove_closer (s : str) : str :=
  if endswith s fence then slice_to_neg 3 s else s.

(** [trimmed_left s]: [s] does not begin with white space. *)
Definition trimmed_left (s : str) : Prop :=
  match s with
  | [] => True
  | c :: _ => py_isspace c = false
  end.

(** ** Python values, exceptions and results *)

Definition float : Type := spec_float.

(** [float(z)] for an [int]: round to nearest even; an overflow is reported
    by the caller as [OverflowError]. *)
Definition float_of_Z (z : Z) : float := binary_normalize 53 1024 z 0 false.

Definition f0_0 : float := S754_zero false.                          (* 0.0 *)
Definition f1_0 : float := S754_finite false 4503599627370496 (-52). (* 1.0 *)
Definition f0_3 : float := S754_finite false 5404319552844595 (-54). (* 0.3 *)
Definition f0_5 : float := S754_finite false 4503599627370496 (-53). (* 0.50 *)
Definition f0_75 : float := S754_finite false 6755399441055744 (-53). (* 0.75 *)
Definition f1_5 : float := S754_finite false 6755399441055744 (-52). (* 1.5 *)

(** [0.0 <= x <= 1.0] as Python evaluates it. *)
Definition in_unit_interval (x : float) : bool :=
  SFleb f0_0 x && SFleb x f1_0.

(** The values [json.loads] produces. A [dict] keeps its items in order;
    a key is looked up from the front. *)
Inductive value : Type :=
| VNone
| VBool (b : bool)
| VInt (z : Z)
| VFloat (f : float)
| VStr (s : str)
| VList (items : list value)
| VDict (items : list (str * value)).

(** The exception classes the module meets; all derive from [Exception]. *)
Inductive exn : Type :=
| JSONDecodeError
| ValueError (msg : str)
| KeyError (key : str)
| TypeError
| AttributeError
| OverflowError
| UnboundLocalError (name : str)
| GraphRecursionError
| ImportError (msg : str)
| ProviderError (msg : str).

(** [isinstance(e, json.JSONDecodeError)] *)
Definition is_JSONDecodeError (e : exn) : bool :=
  match e with JSONDecodeError => true | _ => false end.

Inductive result (A : Type) : Type :=
| Ok (a : A)
| Raise (e : exn).
Arguments Ok {A} a.
Arguments Raise {A} e.

Definition bind_result {A B} (r : result A) (k : A -> result B) : result B :=
  match r with
  | Ok a => k a
  | Raise e => Raise e
  end.

Notation "x <- c1 ;; c2" := (bind_result c1 (fun x => c2))
  (at level 61, c1 at next level, right associativity).

(** [v == s] for a [str] [s] *)
Definition py_eq_str (v : value) (s : str) : bool :=
  match v with
  | VStr t => str_eqb t s
  | _ => false
  end.

(** [v in l] for a list [l] of [str] *)
Definition py_in_strs (v : value) (l : list str) : bool :=
  existsb (py_eq_str v) l.

(** [sub in s] for two [str] *)
Fixpoint is_substring (sub s : str) : bool :=
  startswith s sub ||
  match s with
  | [] => false
  | _ :: s' => is_substring sub s'
  end.

(** [d.get(key)] on the items of a dict *)
Fixpoint dict_get {V} (d : list (str * V)) (key : str) : option V :=
  match d with
  | [] => None
  | (k, v) :: d' => if str_eqb k key then Some v else dict_get d' key
  end.

(** [field in container] *)
Definition py_contains (container : value) (field : str) : result bool :=
  match container with
  | VDict d => Ok (match dict_get d field with Some _ => true | None => false end)
  | VList l => Ok (existsb (fun v => py_eq_str v field) l)
  | VStr s => Ok (is_substring field s)
  | _ => Raise TypeError
  end.

(** [all(field in container for field in fields)] *)
Fixpoint all_in (fields : list str) (container : value) : result bool :=
  match fields with
  | [] => Ok true
  | f :: fs =>
      b <- py_contains container f ;;
      if b then all_in fs container else Ok false
  end.

(** [container[key]] for a [str] key *)
Definition py_getitem (container : value) (key : str) : result value :=
  match container with
  | VDict d =>
      match dict_get d key with
      | Some v => Ok v
      | None => Raise (KeyError key)
      end
  | _ => Raise TypeError
  end.

(** ** What the module takes from outside the repository *)

(** The messages sent to the model. *)
Inductive message : Type :=
| SystemMessage (text : str)
| HumanMessage (text : str).

(** The message the model answers with; its [content] is a [str] or, with
    some providers, a list of content blocks. *)
Record AIMessage : Type := { content : value }.

Inductive llm_outcome : Type :=
| LlmReturns (response : AIMessage)
| LlmRaises (e : exn).

(** The chat models [get_llm] builds, with the arguments it passes:
    model, API key, token limit, temperature. *)
Inductive BaseChatModel : Type :=
| ChatGoogleGenerativeAI (model google_api_key : str)
    (max_output_tokens : Z) (temperature : float)
| ChatOpenAI (model openai_api_key : str) (max_tokens : Z)
    (temperature : float)
| ChatAnthropic (model anthropic_api_key : str) (max_tokens : Z)
    (temperature : float).

Class Runtime : Type := {
  (** [json.loads]: the decoded value, or the exception raised, which is
      [JSONDecodeError] for text that is no JSON *)
  json_loads : str -> result value;
  (** [float(s)] for a [str]; [None] stands for [ValueError] *)
  float_of_str : str -> option float;
  (** [str(v)], as an f-string renders a value, and [repr(v)] *)
  py_str : value -> str;
  py_repr : value -> str;
  (** [f"{x:.2f}"] *)
  format_2f : float -> str;
  (** [s.upper()] *)
  str_upper : str -> str;
  (** [str(e)] for an exception *)
  exn_str : exn -> str;
  (** what the [n]-th call of [llm.ainvoke], counting from 0, does with
      the messages it is given *)
  ainvoke : BaseChatModel -> nat -> list message -> llm_outcome;
  (** [from module import name]: the exception it raises, if any, as when
      the package of the provider is not installed *)
  import_error : str -> str -> option exn;
  (** the constructor of a chat model class on the arguments [get_llm]
      passes: the exception it raises, if any *)
  chat_model_error : BaseChatModel -> option exn
}.

(** [from module import name] *)
Definition import_from `{Runtime} (module name : str) : result unit :=
  match import_error module name with
  | Some e => Raise e
  | None => Ok tt
  end.

(** The call of a chat model constructor: the model, unless the
    constructor raises. *)
Definition new_chat_model `{Runtime} (llm : BaseChatModel)
  : result BaseChatModel :=
  match chat_model_error llm with
  | Some e => Raise e
  | None => Ok llm
  end.

(** [clean_json_response(v)] for a value [v]: the method [strip] exists
    on a [str] only. *)
Definition call_clean_json_response (v : value) : result str :=
  match v with
  | VStr s => Ok (clean_json_response s)
  | _ => Raise AttributeError
  end.

(** [float(v)] *)
Definition py_float `{Runtime} (v : value) : result float :=
  match v with
  | VFloat f => Ok f
  | VInt z =>
      match float_of_Z z with
      | S754_infinity _ => Raise OverflowError
      | f => Ok f
      end
  | VBool b => Ok (if b then f1_0 else f0_0)
  | VStr s =>
      match float_of_str s with
      | Some f => Ok f
      | None =>
          Raise (ValueError (lit "could not convert string to float: "
                             ++ py_repr v))
      end
  | VNone | VList _ | VDict _ => Raise TypeError
  end.

(** ** Settings ([config/settings.py]) *)

Record Settings : Type := {
  (* LLM Provider Configuration *)
  llm_provider : str;
  (* API Keys (only the one matching llm_provider is required) *)
  gemini_api_key : option str;
  openai_api_key : option str;
  anthropic_api_key : option str;
  (* Model Configuration *)
  model_name : str;
  max_tokens : Z;
  temperature : float;
  (* Classification Thresholds *)
  high_confidence_threshold : float;
  low_confidence_threshold : float
}.

(** The field defaults of [Settings]. *)
Definition default_settings : Settings := {|
  llm_provider := lit "gemini";
  gemini_api_key := None;
  openai_api_key := None;
  anthropic_api_key := None;
  model_name := lit "gemini-2.5-flash";
  max_tokens := 1000;
  temperature := f0_0;
  high_confidence_threshold := f0_75;
  low_confidence_threshold := f0_5
|}.

(** [Settings.get_api_key] *)
Definition get_api_key `{Runtime} (self : Settings) : result str :=
  let key_map :=
    [ (lit "gemini", gemini_api_key self);
      (lit "openai", openai_api_key self);
      (lit "anthropic", anthropic_api_key self) ] in
  let api_key :=
    match dict_get key_map (llm_provider self) with
    | Some k => k
    | None => None
    end in
  match api_key with
  | None | Some [] =>
      Raise (ValueError
               (lit "API key for provider '" ++ llm_provider self
                ++ lit "' not found. Please set "
                ++ str_upper (llm_provider self)
                ++ lit "_API_KEY in your .env file"))
  | Some k => Ok k
  end.

(** ** The state that flows through the workflow *)

Record EmailClassificationState : Type := {
  (* Input fields *)
  email_id : str;
  subject : str;
  body : str;
  sender : str;
  (* Processing fields; the three taken from the model's JSON are stored
     as they come *)
  category : value;
  confidence : float;
  reasoning : value;
  keywords : value;
  (* Metadata *)
  retry_count : Z;
  processing_stage : str
}.

(** [{**state, "category": c, "confidence": f, "reasoning": r,
      "keywords": k, "retry_count": n, "processing_stage": stage}] *)
Definition updated (state : EmailClassificationState)
    (c : value) (f : float) (r k : value) (n : Z) (stage : str)
  : EmailClassificationState := {|
  email_id := email_id state;
  subject := subject state;
  body := body state;
  sender := sender state;
  category := c;
  confidence := f;
  reasoning := r;
  keywords := k;
  retry_count := n;
  processing_stage := stage
|}.

(** The projection [email_id], for where a parameter bears that name. *)
Definition get_email_id : EmailClassificationState -> str := email_id.

(** ** Effects: calls of the model and the run of the graph *)

Record World : Type := {
  llm_calls : nat;       (* calls of [llm.ainvoke] made so far *)
  visited : list str     (* nodes run so far, latest first *)
}.

Definition M (A : Type) : Type := World -> result A * World.

Definition ret {A} (a : A) : M A := fun w => (Ok a, w).

Definition bindM {A B} (m : M A) (k : A -> M B) : M B :=
  fun w =>
    match m w with
    | (Ok a, w') => k a w'
    | (Raise e, w') => (Raise e, w')
    end.

Notation "x <~ c1 ;; c2" := (bindM c1 (fun x => c2))
  (at level 61, c1 at next level, right associativity).

(** A pure computation that may raise, inside [M]. *)
Definition lift {A} (r : result A) : M A := fun w => (r, w).

(** The outcome of a [try] body, handed to the [except] clauses. *)
Definition attempt {A} (m : M A) : M (result A) :=
  fun w => let (r, w') := m w in (Ok r, w').

(** [await llm.ainvoke(messages)] *)
Definition llm_ainvoke `{Runtime} (llm : BaseChatModel)
    (messages : list message) : M AIMessage :=
  fun w =>
    let w' := {| llm_calls := S (llm_calls w); visited := visited w |} in
    match ainvoke llm (llm_calls w) messages with
    | LlmReturns response => (Ok response, w')
    | LlmRaises e => (Raise e, w')
    end.

(** The graph engine enters node [name]. *)
Definition enter (name : str) : M unit :=
  fun w => (Ok tt, {| llm_calls := llm_calls w; visited := name :: visited w |}).

Definition initial_world : World := {| llm_calls := 0; visited := [] |}.

(** ** The state graph (the part of LangGraph the module uses)

    A node replaces the state by the dict it returns. After a node, the
    branch registered for it (if any) names the next node through its path
    map; otherwise its plain edge does; [END] stops the run. The run is cut
    off with [GraphRecursionError] after [recursion_limit] nodes. *)

Definition END : str := lit "__end__".

Record StateGraph : Type := {
  nodes : list (str * (EmailClassificationState -> M EmailClassificationState));
  entry_point : option str;
  branches : list (str * ((EmailClassificationState -> str) * list (str * str)));
  edges : list (str * str)
}.

Definition new_graph : StateGraph :=
  {| nodes := []; entry_point := None; branches := []; edges := [] |}.

Definition add_node (name : str)
    (action : EmailClassificationState -> M EmailClassificationState)
    (g : StateGraph) : StateGraph :=
  {| nodes := nodes g ++ [(name, action)]; entry_point := entry_point g;
     branches := branches g; edges := edges g |}.

Definition set_entry_point (name : str) (g : StateGraph) : StateGraph :=
  {| nodes := nodes g; entry_point := Some name;
     branches := branches g; edges := edges g |}.

Definition add_conditional_edges (source : str)
    (path : EmailClassificationState -> str) (path_map : list (str * str))
    (g : StateGraph) : StateGraph :=
  {| nodes := nodes g; entry_point := entry_point g;
     branches := branches g ++ [(source, (path, path_map))]; edges := edges g |}.

Definition add_edge (source target : str) (g : StateGraph) : StateGraph :=
  {| nodes := nodes g; entry_point := entry_point g;
     branches := branches g; edges := edges g ++ [(source, target)] |}.

(** The node to run after [name] has produced [state]; [None] stops. *)
Definition next_node (g : StateGraph) (name : str)
    (state : EmailClassificationState) : result (option str) :=
  let stop_at_end (t : str) := if str_eqb t END then None else Some t in
  match dict_get (branches g) name with
  | Some (path, path_map) =>
      let label := path state in
      match dict_get path_map label with
      | Some t => Ok (stop_at_end t)
      | None => Raise (KeyError label)
      end
  | None =>
      match dict_get (edges g) name with
      | Some t => Ok (stop_at_end t)
      | None => Ok None
      end
  end.

Definition recursion_limit : nat := 25.

Fixpoint run_from (g : StateGraph) (fuel : nat) (name : str)
    (state : EmailClassificationState) : M EmailClassificationState :=
  match fuel with
  | O => lift (Raise GraphRecursionError)
  | S fuel' =>
      match dict_get (nodes g) name with
      | None => lift (Raise (KeyError name))
      | Some action =>
          _ <~ enter name ;;
          state' <~ action state ;;
          next <~ lift (next_node g name state') ;;
          match next with
          | None => ret state'
          | Some name' => run_from g fuel' name' state'
          end
      end
  end.

(** [await workflow.ainvoke(initial_state)] *)
Definition graph_ainvoke (g : StateGraph) (initial_state : EmailClassificationState)
  : M EmailClassificationState :=
  match entry_point g with
  | None => lift (Raise (ValueError (lit "Graph must have an entrypoint")))
  | Some name => run_from g recursion_limit name initial_state
  end.

(** ** The module [workflows/email_classifier.py] *)

Section Workflow.

Context `{rt : Runtime}.

(** The module-level [settings = get_settings()]. *)
Variable settings : Settings.

(** [get_llm()] *)
Definition get_llm : result BaseChatModel :=
  let provider := llm_provider settings in
  api_key <- get_api_key settings ;;
  if str_eqb provider (lit "gemini") then
    _ <- import_from (lit "langchain_google_genai")
           (lit "ChatGoogleGenerativeAI") ;;
    new_chat_model
      (ChatGoogleGenerativeAI (model_name settings) api_key
         (max_tokens settings) (temperature settings))
  else if str_eqb provider (lit "openai") then
    _ <- import_from (lit "langchain_openai") (lit "ChatOpenAI") ;;
    new_chat_model
      (ChatOpenAI (model_name settings) api_key
         (max_tokens settings) (temperature settings))
  else if str_eqb provider (lit "anthropic") then
    _ <- import_from (lit "langchain_anthropic") (lit "ChatAnthropic") ;;
    new_chat_model
      (ChatAnthropic (model_name settings) api_key
         (max_tokens settings) (temperature settings))
  else Raise (ValueError
                (lit "Unsupported LLM provider: " ++ provider
                 ++ lit ". Supported providers: gemini, openai, anthropic")).

Definition required_fields : list str :=
  [lit "category"; lit "confidence"; lit "reasoning"; lit "keywords"].

Definition valid_categories : list str :=
  [lit "spam"; lit "important"; lit "neutral"].

(** [classify_email_node]: the [try] body after [llm.ainvoke] returned. *)
Definition classify_try (state : EmailClassificationState)
    (response : AIMessage) : result EmailClassificationState :=
  (* Parse JSON response *)
  content <- call_clean_json_response (content response) ;;
  result_ <- json_loads content ;;
  (* Validate required fields *)
  present <- all_in required_fields result_ ;;
  if negb present then
    Raise (ValueError (lit "Missing required fields in response: "
                       ++ py_str result_))
  else
  (* Validate category *)
  c <- py_getitem result_ (lit "category") ;;
  if negb (py_in_strs c valid_categories) then
    Raise (ValueError (lit "Invalid category: " ++ py_str c))
  else
  (* Update state *)
  c <- py_getitem result_ (lit "category") ;;
  x <- py_getitem result_ (lit "confidence") ;;
  f <- py_float x ;;
  r <- py_getitem result_ (lit "reasoning") ;;
  k <- py_getitem result_ (lit "keywords") ;;
  Ok (updated state c f r k (retry_count state) (lit "classified")).

(** [classify_email_node]: the two [except] clauses. [response] is the
    local variable of that name, bound only once [llm.ainvoke] returned;
    the first clause reads it for its log line. *)
Definition classify_except (state : EmailClassificationState)
    (response : option AIMessage) (e : exn)
  : result EmailClassificationState :=
  if is_JSONDecodeError e then
    match response with
    | None => Raise (UnboundLocalError (lit "response"))
    | Some _ =>
        Ok (updated state (VStr (lit "neutral")) f0_3
              (VStr (lit "Unable to parse LLM response")) (VList [])
              (retry_count state) (lit "error_json_parse"))
    end
  else
    Ok (updated state (VStr (lit "neutral")) f0_3
          (VStr (lit "Error during classification: "
                 ++ firstn 100 (exn_str e)))
          (VList [])
          (retry_count state) (lit "error")).

(** The prompts of [classify_email_node]; in the first an apostrophe
    stands for the double quote. *)
Definition classify_system_prompt : str :=
  join_lines (map dq
    ([
      "You are an expert email classifier. Analyze emails and classify them into exactly one category:";
      EmptyString;
      "- spam: Unsolicited emails, phishing attempts, scams, promotional bulk mail";
      "- important: Urgent business matters, critical notifications, time-sensitive requests";
      "- neutral: Regular correspondence, newsletters, non-urgent communication";
      EmptyString;
      "You MUST respond with valid JSON only, no additional text or explanation:";
      "{";
      "    'category': 'spam' | 'important' | 'neutral',";
      "    'confidence': 0.0 to 1.0,";
      "    'reasoning': 'Brief explanation (1-2 sentences)',";
      "    'keywords': ['key', 'terms', 'that', 'influenced', 'decision']";
      "}" ])%string).

Definition classify_user_prompt (state : EmailClassificationState) : str :=
  join_lines
    [ lit "Classify this email:";
      [];
      lit "Subject: " ++ subject state;
      lit "From: " ++ sender state;
      lit "Body: " ++ firstn 1000 (body state) ].  (* Limit body length *)

(** [classify_email_node(state)] *)
Definition classify_email_node (state : EmailClassificationState)
  : M EmailClassificationState :=
  let system_prompt := classify_system_prompt in
  let user_prompt := classify_user_prompt state in
  (* Call LLM *)
  llm <~ lift get_llm ;;
  let messages :=
    [SystemMessage system_prompt; HumanMessage user_prompt] in
  called <~ attempt (llm_ainvoke llm messages) ;;
  lift match called with
       | Raise e => classify_except state None e
       | Ok response =>
           match classify_try state response with
           | Ok state' => Ok state'
           | Raise e => classify_except state (Some response) e
           end
       end.

(** [reanalyze_node]: the [try] body after [llm.ainvoke] returned. *)
Definition reanalyze_try (state : EmailClassificationState)
    (response : AIMessage) : result EmailClassificationState :=
  content <- call_clean_json_response (content response) ;;
  result_ <- json_loads content ;;
  (* Validate *)
  c <- py_getitem result_ (lit "category") ;;
  if negb (py_in_strs c valid_categories) then
    Raise (ValueError (lit "Invalid category: " ++ py_str c))
  else
  c <- py_getitem result_ (lit "category") ;;
  x <- py_getitem result_ (lit "confidence") ;;
  f <- py_float x ;;
  r <- py_getitem result_ (lit "reasoning") ;;
  k <- py_getitem result_ (lit "keywords") ;;
  Ok (updated state c f r k (retry_count state + 1) (lit "reanalyzed")).

(** [reanalyze_node]: the [except Exception] clause. *)
Definition reanalyze_except (state : EmailClassificationState) (e : exn)
  : EmailClassificationState :=
  (* Keep original classification but mark as uncertain *)
  updated state (category state) (confidence state) (reasoning state)
    (keywords state) (retry_count state + 1) (lit "reanalysis_failed").

(** The prompts of [reanalyze_node]; in the first an apostrophe stands for
    the double quote. *)
Definition reanalyze_system_prompt : str :=
  join_lines (map dq
    ([
      "You are an expert email classifier performing a SECOND analysis.";
      EmptyString;
      "The first classification was uncertain. Please carefully reconsider:";
      EmptyString;
      "Categories:";
      "- spam: Unsolicited, promotional, or malicious emails";
      "- important: Time-sensitive business matters requiring action";
      "- neutral: Regular correspondence";
      EmptyString;
      "Provide a more confident assessment. Consider:";
      "1. Sender reputation indicators";
      "2. Urgency keywords";
      "3. Call-to-action presence";
      "4. Professional vs promotional language";
      EmptyString;
      "You MUST respond with valid JSON only:";
      "{";
      "    'category': 'spam' | 'important' | 'neutral',";
      "    'confidence': 0.0 to 1.0,";
      "    'reasoning': 'Detailed explanation referencing specific indicators',";
      "    'keywords': ['specific', 'indicators', 'found']";
      "}" ])%string).

Definition reanalyze_user_prompt (state : EmailClassificationState) : str :=
  join_lines
    [ lit "Re-analyze this email with more scrutiny:";
      [];
      lit "Subject: " ++ subject state;
      lit "From: " ++ sender state;
      lit "Body: " ++ body state;
      [];
      lit "Previous classification: " ++ py_str (category state)
        ++ lit " (confidence: " ++ format_2f (confidence state) ++ lit ")";
      lit "Previous reasoning: " ++ py_str (reasoning state) ].

(** [reanalyze_node(state)] *)
Definition reanalyze_node (state : EmailClassificationState)
  : M EmailClassificationState :=
  (* Enhanced prompt with previous classification context *)
  let system_prompt := reanalyze_system_prompt in
  let user_prompt := reanalyze_user_prompt state in
  llm <~ lift get_llm ;;
  let messages :=
    [SystemMessage system_prompt; HumanMessage user_prompt] in
  called <~ attempt (llm_ainvoke llm messages) ;;
  ret match called with
      | Raise e => reanalyze_except state e
      | Ok response =>
          match reanalyze_try state response with
          | Ok state' => state'
          | Raise e => reanalyze_except state e
          end
      end.

(** [should_reanalyze(state)]; the states of the workflow always carry the
    key [retry_count], so the default of [state.get] is not used. *)
Definition should_reanalyze (state : EmailClassificationState) : str :=
  let confidence := confidence state in
  let retry_count := retry_count state in
  (* Maximum 1 retry to avoid infinite loops *)
  if (1 <=? retry_count)%Z then lit "max_retries"
  (* Low confidence triggers re-analysis *)
  else if SFltb confidence (low_confidence_threshold settings) then lit "reanalyze"
  (* High confidence, we're done *)
  else lit "end".

(** [create_classification_workflow()] *)
Definition create_classification_workflow : StateGraph :=
  let workflow := new_graph in
  (* Add nodes *)
  let workflow := add_node (lit "classify") classify_email_node workflow in
  let workflow := add_node (lit "reanalyze") reanalyze_node workflow in
  (* Set entry point *)
  let workflow := set_entry_point (lit "classify") workflow in
  (* Add conditional edges from classify node *)
  let workflow :=
    add_conditional_edges (lit "classify") should_reanalyze
      [ (lit "reanalyze", lit "reanalyze");
        (lit "end", END);
        (lit "max_retries", END) ]
      workflow in
  (* Reanalyze always goes to END (no more retries) *)
  add_edge (lit "reanalyze") END workflow.

(** The routing decision as the graph takes it: the node that follows
    [classify], or [None] to stop. *)
Definition route (state : EmailClassificationState) : result (option str) :=
  next_node create_classification_workflow (lit "classify") state.

(** The state [classify_email] starts from. *)
Definition initial_state (email_id subject body sender : str)
  : EmailClassificationState := {|
  email_id := email_id;
  subject := subject;
  body := body;
  sender := sender;
  category := VStr [];
  confidence := f0_0;
  reasoning := VStr [];
  keywords := VList [];
  retry_count := 0;
  processing_stage := lit "initialized"
|}.

(** [classify_email(email_id, subject, body, sender)]; the returned dict is
    the list of its items. *)
Definition classify_email (email_id subject body sender : str)
  : M (list (str * value)) :=
  (* Create and run workflow *)
  let workflow := create_classification_workflow in
  final_state <~ graph_ainvoke workflow
                   (initial_state email_id subject body sender) ;;
  (* Return only relevant fields *)
  ret [ (lit "email_id", VStr (get_email_id final_state));
        (lit "category", category final_state);
        (lit "confidence", VFloat (confidence final_state));
        (lit "reasoning", reasoning final_state);
        (lit "keywords", keywords final_state);
        (lit "processing_stage", VStr (processing_stage final_state)) ].

End Workflow.

(** ** Vocabulary of the statements *)

(** The worlds reached by one model call and by entering a node. *)
Definition called (w : World) : World :=
  {| llm_calls := S (llm_calls w); visited := visited w |}.

Definition entered (name : str) (w : World) : World :=
  {| llm_calls := llm_calls w; visited := name :: visited w |}.

(** How often the graph ran node [name]. *)
Definition runs_of (name : str) (w : World) : nat :=
  length (filter (str_eqb name) (visited w)).

(** The messages the two nodes send. *)
Definition classify_messages (state : EmailClassificationState)
  : list message :=
  [SystemMessage classify_system_prompt;
   HumanMessage (classify_user_prompt state)].

Definition reanalyze_messages `{Runtime} (state : EmailClassificationState)
  : list message :=
  [SystemMessage reanalyze_system_prompt;
   HumanMessage (reanalyze_user_prompt state)].

(** One of the three category literals. *)
Definition valid_category (c : value) : Prop :=
  c = VStr (lit "spam") \/ c = VStr (lit "important") \/ c = VStr (lit "neutral").

(** The input fields of two states agree. *)
Definition same_inputs (s s' : EmailClassificationState) : Prop :=
  email_id s' = email_id s /\ subject s' = subject s
  /\ sender s' = sender s /\ body s' = body s.

(** The answer of the model is text that decodes to [v]. *)
Definition decodes_to `{Runtime} (response : AIMessage) (v : value) : Prop :=
  exists text,
    content response = VStr text
    /\ json_loads (clean_json_response text) = Ok v.

(** The [n]-th model call returns text that decodes to a payload whose
    confidence [float] turns into [f]. *)
Definition model_reports `{Runtime} (llm : BaseChatModel) (n : nat) (f : float)
  : Prop :=
  exists messages response v x,
    ainvoke llm n messages = LlmReturns response
    /\ decodes_to response v
    /\ py_getitem v (lit "confidence") = Ok x
    /\ py_float x = Ok f.

(** The outcomes of the model call that make the reanalysis fail: the call
    raises; the answer is no text; it does not decode; a field is missing
    (or the payload is no dict); the category is invalid; the confidence
    is no number. *)
Inductive reanalysis_fails `{Runtime} : llm_outcome -> Prop :=
| reanalysis_capability_error (e : exn) :
    reanalysis_fails (LlmRaises e)
| reanalysis_no_text (response : AIMessage) :
    (forall text, content response <> VStr text) ->
    reanalysis_fails (LlmReturns response)
| reanalysis_unparseable (response : AIMessage) (text : str) (e : exn) :
    content response = VStr text ->
    json_loads (clean_json_response text) = Raise e ->
    reanalysis_fails (LlmReturns response)
| reanalysis_missing_field (response : AIMessage) (v : value)
    (field : str) (e : exn) :
    decodes_to response v ->
    In field [lit "category"; lit "confidence"; lit "reasoning"; lit "keywords"] ->
    py_getitem v field = Raise e ->
    reanalysis_fails (LlmReturns response)
| reanalysis_invalid_category (response : AIMessage) (v c : value) :
    decodes_to response v ->
    py_getitem v (lit "category") = Ok c ->
    py_in_strs c [lit "spam"; lit "important"; lit "neutral"] = false ->
    reanalysis_fails (LlmReturns response)
| reanalysis_confidence_no_number (response : AIMessage) (v x : value)
    (e : exn) :
    decodes_to response v ->
    py_getitem v (lit "confidence") = Ok x ->
    py_float x = Raise e ->
    reanalysis_fails (LlmReturns response).

(** The outcomes of the model call that make the classification fail
    otherwise than by text that is no JSON: the call raises; the answer is
    no text; the decoder raises something else; a required field is
    missing; the payload is no dict; the category is invalid; the
    confidence is no number. *)
Inductive classification_fails_otherwise `{Runtime} : llm_outcome -> Prop :=
| classification_capability_error (e : exn) :
    is_JSONDecodeError e = false ->
    classification_fails_otherwise (LlmRaises e)
| classification_no_text (response : AIMessage) :
    (forall text, content response <> VStr text) ->
    classification_fails_otherwise (LlmReturns response)
| classification_decoder_error (response : AIMessage) (text : str)
    (e : exn) :
    content response = VStr text ->
    json_loads (clean_json_response text) = Raise e ->
    is_JSONDecodeError e = false ->
    classification_fails_otherwise (LlmReturns response)
| classification_missing_field (response : AIMessage) (v : value)
    (field : str) :
    decodes_to response v ->
    In field [lit "category"; lit "confidence"; lit "reasoning"; lit "keywords"] ->
    py_contains v field = Ok false ->
    classification_fails_otherwise (LlmReturns response)
| classification_no_dict (response : AIMessage) (v : value) :
    decodes_to response v ->
    (forall items, v <> VDict items) ->
    classification_fails_otherwise (LlmReturns response)
| classification_invalid_category (response : AIMessage) (v c : value) :
    decodes_to response v ->
    py_getitem v (lit "category") = Ok c ->
    py_in_strs c [lit "spam"; lit "important"; lit "neutral"] = false ->
    classification_fails_otherwise (LlmReturns response)
| classification_confidence_no_number (response : AIMessage) (v x : value)
    (e : exn) :
    decodes_to response v ->
    py_getitem v (lit "confidence") = Ok x ->
    py_float x = Raise e ->
    classification_fails_otherwise (LlmReturns response).

(** What the classification node leaves behind when it returns, having
    made the [n]-th model call. *)
Definition after_classify `{Runtime} (llm : BaseChatModel) (n : nat)
    (s s' : EmailClassificationState) : Prop :=
  same_inputs s s'
  /\ retry_count s' = retry_count s
  /\ ((processing_stage s' = lit "classified"
       /\ valid_category (category s')
       /\ model_reports llm n (confidence s'))
      \/ (processing_stage s' = lit "error_json_parse"
          /\ category s' = VStr (lit "neutral")
          /\ confidence s' = f0_3
          /\ reasoning s' = VStr (lit "Unable to parse LLM response")
          /\ keywords s' = VList [])
      \/ (processing_stage s' = lit "error"
          /\ category s' = VStr (lit "neutral")
          /\ confidence s' = f0_3
          /\ keywords s' = VList [])).

(** What the reanalysis node leaves behind, having made the [n]-th model
    call. *)
Definition after_reanalyze `{Runtime} (llm : BaseChatModel) (n : nat)
    (s s' : EmailClassificationState) : Prop :=
  same_inputs s s'
  /\ retry_count s' = (retry_count s + 1)%Z
  /\ ((processing_stage s' = lit "reanalyzed"
       /\ valid_category (category s')
       /\ model_reports llm n (confidence s'))
      \/ (processing_stage s' = lit "reanalysis_failed"
          /\ category s' = category s
          /\ confidence s' = confidence s
          /\ reasoning s' = reasoning s
          /\ keywords s' = keywords s)).

(** The dict [classify_email] builds from the final state. *)
Definition result_of (final_state : EmailClassificationState)
  : list (str * value) :=
  [ (lit "email_id", VStr (email_id final_state));
    (lit "category", category final_state);
    (lit "confidence", VFloat (confidence final_state));
    (lit "reasoning", reasoning final_state);
    (lit "keywords", keywords final_state);
    (lit "processing_stage", VStr (processing_stage final_state)) ].

(** The keys of the dict [classify_email] returns, in order. *)
Definition result_keys : list str :=
  [ lit "email_id"; lit "category"; lit "confidence"; lit "reasoning";
    lit "keywords"; lit "processing_stage" ].

(** ** Sample runtimes and settings *)

(** [s.upper()] on ASCII text. *)
Definition ascii_upper (s : str) : str :=
  map (fun c => if ((97 <=? c) && (c <=? 122))%N then (c - 32)%N else c) s.

(** A runtime for the sample runs: [table] lists the JSON texts that occur
    with the values [json.loads] gives them (every other text that occurs
    in the runs is no JSON), [outcomes] lists what the successive model
    calls do, whatever the messages. The runs convert no [str] to [float];
    what they render (values and floats in the prompts, messages of
    exceptions) does not bear on their course and is cut short. The
    packages of the providers are installed and the constructors accept
    their arguments. *)
Definition sample_runtime (table : list (str * value))
    (outcomes : list llm_outcome) : Runtime := {|
  json_loads := fun text => match dict_get table text with
                            | Some v => Ok v
                            | None => Raise JSONDecodeError
                            end;
  float_of_str := fun _ => None;
  py_str := fun v => match v with VStr s => s | _ => [] end;
  py_repr := fun _ => [];
  format_2f := fun _ => [];
  str_upper := ascii_upper;
  exn_str := fun e => match e with
                      | ValueError m | ProviderError m => m
                      | _ => []
                      end;
  ainvoke := fun _ n _ =>
               nth n outcomes (LlmRaises (ProviderError (lit "no more calls")));
  import_error := fun _ _ => None;
  chat_model_error := fun _ => None
|}.

(** The default settings with a Gemini key set. *)
Definition keyed_settings : Settings := {|
  llm_provider := lit "gemini";
  gemini_api_key := Some (lit "test-key");
  openai_api_key := None;
  anthropic_api_key := None;
  model_name := lit "gemini-2.5-flash";
  max_tokens := 1000;
  temperature := f0_0;
  high_confidence_threshold := f0_75;
  low_confidence_threshold := f0_5
|}.

(** The chat model [get_llm] builds from them. *)
Definition keyed_llm : BaseChatModel :=
  ChatGoogleGenerativeAI (lit "gemini-2.5-flash") (lit "test-key") 1000 f0_0.

(** Model outputs, as text and as [json.loads] decodes them. *)
Definition spam_text : str :=
  dq "{'category': 'spam', 'confidence': 0.95, 'reasoning': 'Obvious spam', 'keywords': ['scam']}".

Definition f0_95 : float := S754_finite false 8556839292003942 (-53). (* 0.95 *)

Definition spam_value : value :=
  VDict [ (lit "category", VStr (lit "spam"));
          (lit "confidence", VFloat f0_95);
          (lit "reasoning", VStr (lit "Obvious spam"));
          (lit "keywords", VList [VStr (lit "scam")]) ].

Definition overconfident_text : str :=
  dq "{'category': 'spam', 'confidence': 1.5, 'reasoning': 'Obvious spam', 'keywords': []}".

Definition overconfident_value : value :=
  VDict [ (lit "category", VStr (lit "spam"));
          (lit "confidence", VFloat f1_5);
          (lit "reasoning", VStr (lit "Obvious spam"));
          (lit "keywords", VList []) ].

Definition unsure_text : str :=
  dq "{'category': 'neutral', 'confidence': 0.3, 'reasoning': 'Unclear', 'keywords': []}".

Definition unsure_value : value :=
  VDict [ (lit "category", VStr (lit "neutral"));
          (lit "confidence", VFloat f0_3);
          (lit "reasoning", VStr (lit "Unclear"));
          (lit "keywords", VList []) ].

Definition phishing_text : str :=
  dq "{'category': 'phishing', 'confidence': 0.9, 'reasoning': 'Looks like phishing', 'keywords': ['link']}".

Definition f0_9 : float := S754_finite false 8106479329266893 (-53). (* 0.9 *)

Definition phishing_value : value :=
  VDict [ (lit "category", VStr (lit "phishing"));
          (lit "confidence", VFloat f0_9);
          (lit "reasoning", VStr (lit "Looks like phishing"));
          (lit "keywords", VList [VStr (lit "link")]) ].

Definition partial_text : str := dq "{'category': 'spam'}".

Definition partial_value : value :=
  VDict [ (lit "category", VStr (lit "spam")) ].

Definition prose_text : str :=
  lit "I think this is spam because it mentions prizes.".

Definition sample_table : list (str * value) :=
  [ (spam_text, spam_value);
    (overconfident_text, overconfident_value);
    (unsure_text, unsure_value);
    (phishing_text, phishing_value);
    (partial_text, partial_value) ].

Definition says (text : str) : llm_outcome :=
  LlmReturns {| content := VStr text |}.

(** A state as it is after a low-confidence first classification. *)
Definition unsure_state : EmailClassificationState := {|
  email_id := lit "test_001";
  subject := lit "URGENT: You won $1,000,000!!!";
  body := lit "Click here NOW to claim your prize! Limited time offer!";
  sender := lit "scam@fake-lottery.com";
  category := VStr (lit "neutral");
  confidence := f0_3;
  reasoning := VStr (lit "Unclear");
  keywords := VList [];
  retry_count := 0;
  processing_stage := lit "classified"
|}.

(** A state with [retry_count = 0] whose confidence equals the default
    threshold. *)
Definition at_threshold_state : EmailClassificationState :=
  updated unsure_state (VStr (lit "neutral")) f0_5 (VStr (lit "Unclear"))
    (VList []) 0 (lit "classified").

(** Runtimes: the model answers with the spam payload; with a confidence
    of 1.5; first unsure and then in prose; in prose; or its client raises
    a JSON decoding error. *)
Definition rt_spam : Runtime := sample_runtime sample_table [says spam_text].

Definition rt_overconfident : Runtime :=
  sample_runtime sample_table [says overconfident_text].

Definition rt_unsure_then_prose : Runtime :=
  sample_runtime sample_table [says unsure_text; says prose_text].

Definition rt_prose : Runtime := sample_runtime sample_table [says prose_text].

Definition rt_decode_error : Runtime :=
  sample_runtime sample_table [LlmRaises JSONDecodeError].

Definition rt_quota : Runtime :=
  sample_runtime sample_table
    [LlmRaises (ProviderError (lit "API quota exceeded"))].

Definition rt_phishing : Runtime :=
  sample_runtime sample_table [says phishing_text].

Definition rt_partial : Runtime :=
  sample_runtime sample_table [says partial_text].

(** The sample email. *)
Definition sample_email_id : str := lit "test_001".
Definition sample_subject : str := lit "URGENT: You won $1,000,000!!!".
Definition sample_body : str :=
  lit "Click here NOW to claim your prize! Limited time offer!".
Definition sample_sender : str := lit "scam@fake-lottery.com".

(** The state of the sample email before the classification. *)
Definition sample_email_state : EmailClassificationState :=
  initial_state sample_email_id sample_subject sample_body sample_sender.

(** [classify_email] on the sample email, from the initial world. *)
Definition sample_run (rt : Runtime) (settings : Settings)
  : result (list (str * value)) * World :=
  classify_email settings sample_email_id sample_subject sample_body
    sample_sender initial_world.

(** The graph run inside it. *)
Definition sample_graph_run (rt : Runtime) (settings : Settings)
  : result EmailClassificationState * World :=
  graph_ainvoke (create_classification_workflow settings)
    (initial_state sample_email_id sample_subject sample_body sample_sender)
    initial_world.

(** ** Sample inputs *)

Definition nl : str := [10%N].

(** A JSON object wrapped in two fenced blocks. *)
Definition double_wrapped : str :=
  lit "```" ++ nl ++ lit "```json" ++ nl ++ lit "{}" ++ nl
  ++ lit "```" ++ nl ++ lit "```".

(** A JSON object in a block tagged [python]. *)
Definition python_fenced : str :=
  lit "```python" ++ nl ++ lit "{}" ++ nl ++ lit "```".

(** ** Further vocabulary *)

(** [ws] consists of white space only. *)
Definition all_space (ws : str) : Prop :=
  Forall (fun c => py_isspace c = true) ws.

(** [s] does not end with white space. *)
Definition trimmed_right (s : str) : Prop := trimmed_left (rev s).

(** A JSON object with backquotes inside, and the object as models tend
    to wrap it: in a block tagged [json] and in a block without tag. *)
Definition bare_object : str := dq "{'code': 'use `print()`'}".

Definition wrapped_object : str :=
  lit "  " ++ fence_json ++ nl ++ bare_object ++ nl ++ fence ++ nl.

Definition fenced_object : str :=
  lit "  " ++ fence ++ nl ++ bare_object ++ nl ++ fence ++ nl.

(** The model call returns text that decodes to a dict with the four
    fields, of which the category [c] is valid and the confidence is
    turned into [f] by [float]. *)
Definition accepts `{Runtime} (outcome : llm_outcome)
    (c : value) (f : float) (r k : value) : Prop :=
  exists response text items x,
    outcome = LlmReturns response
    /\ content response = VStr text
    /\ json_loads (clean_json_response text) = Ok (VDict items)
    /\ dict_get items (lit "category") = Some c
    /\ valid_category c
    /\ dict_get items (lit "confidence") = Some x
    /\ py_float x = Ok f
    /\ dict_get items (lit "reasoning") = Some r
    /\ dict_get items (lit "keywords") = Some k.

(** The dict [classify_email] returns, by its values. *)
Definition result_dict (email_id : str) (c : value) (f : float)
    (r k : value) (stage : str) : list (str * value) :=
  [ (lit "email_id", VStr email_id);
    (lit "category", c);
    (lit "confidence", VFloat f);
    (lit "reasoning", r);
    (lit "keywords", k);
    (lit "processing_stage", VStr stage) ].

(** ** The service endpoint ([app/main.py]) *)

Record ClassifyRequest : Type := {
  request_email_id : str;
  request_subject : str;
  request_body : str;
  request_sender : str
}.

Record ClassifyResponse : Type := {
  response_email_id : str;
  response_category : str;
  response_confidence : float;
  response_reasoning : str;
  response_keywords : list str;
  response_processing_stage : str
}.

(** What a call of the endpoint function ends in: the response it
    returns, or the [HTTPException] it raises. *)
Inductive endpoint_outcome : Type :=
| Responds (response : ClassifyResponse)
| RaisesHTTPException (status_code : Z) (detail : str).

Section Endpoint.

Context `{rt : Runtime}.
Variable settings : Settings.

(** The constructor of [ClassifyResponse] on the items of the result
    dict: the validation of pydantic, with the exception it raises when it
    refuses the dict. *)
Variable ClassifyResponse_init : list (str * value) -> result ClassifyResponse.

(** [classify_endpoint(request)] *)
Definition classify_endpoint (request : ClassifyRequest)
  : World -> endpoint_outcome * World :=
  fun w =>
    let (attempted, w') :=
      (result_ <~ classify_email settings (request_email_id request)
                    (request_subject request) (request_body request)
                    (request_sender request) ;;
       lift (ClassifyResponse_init result_)) w in
    match attempted with
    | Ok response => (Responds response, w')
    | Raise e => (RaisesHTTPException 500 (exn_str e), w')
    end.

End Endpoint.

(** A request for the sample email. *)
Definition sample_request : ClassifyRequest := {|
  request_email_id := lit "test_001";
  request_subject := lit "URGENT: You won $1,000,000!!!";
  request_body := lit "Click here NOW to claim your prize! Limited time offer!";
  request_sender := lit "scam@fake-lottery.com"
|}.

(** A model that is first unsure and then sure. *)
Definition rt_unsure_then_spam : Runtime :=
  sample_runtime sample_table [says unsure_text; says spam_text].

(** A state whose confidence is not a number. *)
Definition nan_state : EmailClassificationState :=
  updated unsure_state (VStr (lit "neutral")) S754_nan (VStr (lit "Unclear"))
    (VList []) 0 (lit "classified").

(** A validation for the sample runs: it accepts the dicts whose six
    values have the declared types and refuses every other dict. *)
Fixpoint strs_of (items : list value) : option (list str) :=
  match items with
  | [] => Some []
  | VStr s :: rest => option_map (cons s) (strs_of rest)
  | _ :: _ => None
  end.

Definition sample_validation_error : exn :=
  ValueError (lit "validation error for ClassifyResponse").

Definition sample_ClassifyResponse_init (items : list (str * value))
  : result ClassifyResponse :=
  match dict_get items (lit "email_id") with
  | Some (VStr email_id) =>
  match dict_get items (lit "category") with
  | Some (VStr category) =>
  match dict_get items (lit "confidence") with
  | Some (VFloat confidence) =>
  match dict_get items (lit "reasoning") with
  | Some (VStr reasoning) =>
  match dict_get items (lit "keywords") with
  | Some (VList keywords) =>
  match strs_of keywords with
  | Some keywords =>
  match dict_get items (lit "processing_stage") with
  | Some (VStr processing_stage) =>
      Ok {| response_email_id := email_id;
            response_category := category;
            response_confidence := confidence;
            response_reasoning := reasoning;
            response_keywords := keywords;
            response_processing_stage := processing_stage |}
  | _ => Raise sample_validation_error end
  | _ => Raise sample_validation_error end
  | _ => Raise sample_validation_error end
  | _ => Raise sample_validation_error end
  | _ => Raise sample_validation_error end
  | _ => Raise sample_validation_error end
  | _ => Raise sample_validation_error end.

(** The response to the sample request when the model says spam. *)
Definition sample_response : ClassifyResponse := {|
  response_email_id := lit "test_001";
  response_category := lit "spam";
  response_confidence := f0_95;
  response_reasoning := lit "Obvious spam";
  response_keywords := [lit "scam"];
  response_processing_stage := lit "classified"
|}.

(** A body of 1000 characters, and more text to follow it. *)
Definition long_body : str := repeat 120%N 1000.

Definition more_text : str := lit " Unsubscribe at any time.".

(** ** The model [get_llm] asks for *)

(** [provider_class settings k module name llm]: for the provider of the
    settings [get_llm] imports [name] from [module] and calls it on the
    key [k] and the model name, token limit and temperature of the
    settings, which is the model [llm]. *)
Inductive provider_class (settings : Settings) (k : str)
  : str -> str -> BaseChatModel -> Prop :=
| provider_gemini :
    llm_provider settings = lit "gemini" ->
    provider_class settings k (lit "langchain_google_genai")
      (lit "ChatGoogleGenerativeAI")
      (ChatGoogleGenerativeAI (model_name settings) k (max_tokens settings)
         (temperature settings))
| provider_openai :
    llm_provider settings = lit "openai" ->
    provider_class settings k (lit "langchain_openai") (lit "ChatOpenAI")
      (ChatOpenAI (model_name settings) k (max_tokens settings)
         (temperature settings))
| provider_anthropic :
    llm_provider settings = lit "anthropic" ->
    provider_class settings k (lit "langchain_anthropic")
      (lit "ChatAnthropic")
      (ChatAnthropic (model_name settings) k (max_tokens settings)
         (temperature settings)).

(** The sample runtime on a machine where no provider package is
    installed. *)
Definition rt_no_package : Runtime := {|
  json_loads := json_loads (Runtime := rt_spam);
  float_of_str := float_of_str (Runtime := rt_spam);
  py_str := py_str (Runtime := rt_spam);
  py_repr := py_repr (Runtime := rt_spam);
  format_2f := format_2f (Runtime := rt_spam);
  str_upper := str_upper (Runtime := rt_spam);
  exn_str := fun e => match e with
                      | ValueError m | ProviderError m | ImportError m => m
                      | _ => []
                      end;
  ainvoke := ainvoke (Runtime := rt_spam);
  import_error := fun module _ =>
                    Some (ImportError (lit "No module named '" ++ module
                                       ++ lit "'"));
  chat_model_error := fun _ => None
|}.

(** ** The failures of the classification, with the exception raised *)


(** ** Properties of the string layer *)

Lemma char_eqb_eq (a b : char) : char_eqb a b = true <-> a = b.
Proof. apply N.eqb_eq. Qed.

Lemma startswith_app (s p : str) :
  startswith s p = true <-> exists r, s = p ++ r.
Proof.
  revert s; induction p as [|y p IH]; intros s; simpl.
  - split; [intros _; now exists s | reflexivity].
  - destruct s as [|x s].
    + split; [discriminate | intros [r Hr]; discriminate].
    + rewrite andb_true_iff, char_eqb_eq, IH. split.
      * intros [-> [r ->]]. now exists r.
      * intros [r Hr]. injection Hr as -> ->. split; [reflexivity | now exists r].
Qed.

Lemma endswith_app (s p : str) :
  endswith s p = true <-> exists r, s = r ++ p.
Proof.
  unfold endswith. rewrite startswith_app. split.
  - intros [r Hr]. exists (rev r).
    rewrite <- (rev_involutive s), Hr, rev_app_distr, rev_involutive.
    reflexivity.
  - intros [r ->]. exists (rev r). apply rev_app_distr.
Qed.

Lemma slice_from_app (p r : str) : slice_from (length p) (p ++ r) = r.
Proof.
  unfold slice_from. induction p; simpl; auto.
Qed.

Lemma slice_to_neg_app (r p : str) : slice_to_neg (length p) (r ++ p) = r.
Proof.
  unfold slice_to_neg. rewrite length_app.
  replace (length r + length p - length p) with (length r + 0) by lia.
  rewrite firstn_app_2. simpl. apply app_nil_r.
Qed.

(** *** Stripping *)

Lemma lstrip_trimmed (s : str) : trimmed_left (lstrip s).
Proof.
  induction s as [|c s IH]; simpl; [exact I|].
  destruct (py_isspace c) eqn:Hc; [exact IH | exact Hc].
Qed.

Lemma lstrip_fixed (s : str) : trimmed_left s -> lstrip s = s.
Proof.
  destruct s as [|c s]; simpl; [reflexivity|]. now intros ->.
Qed.

Lemma lstrip_suffix (s : str) : exists l, s = l ++ lstrip s.
Proof.
  induction s as [|c s [l IH]]; simpl.
  - now exists [].
  - destruct (py_isspace c).
    + exists (c :: l). simpl. now f_equal.
    + now exists [].
Qed.

Lemma lstrip_snoc (l : str) (c : char) :
  py_isspace c = false -> lstrip (l ++ [c]) = lstrip l ++ [c].
Proof.
  intros Hc. induction l as [|a l IH]; simpl.
  - now rewrite Hc.
  - destruct (py_isspace a); [exact IH | reflexivity].
Qed.

Lemma rstrip_cons (c : char) (s : str) :
  py_isspace c = false -> rstrip (c :: s) = c :: rstrip s.
Proof.
  intros Hc. unfold rstrip. simpl.
  rewrite lstrip_snoc by exact Hc.
  now rewrite rev_app_distr.
Qed.

Lemma rstrip_trimmed_left (s : str) : trimmed_left s -> trimmed_left (rstrip s).
Proof.
  destruct s as [|c s]; simpl; intros Hc; [exact I|].
  rewrite rstrip_cons by exact Hc. exact Hc.
Qed.

Lemma rstrip_prefix (s : str) : exists r, s = rstrip s ++ r.
Proof.
  unfold rstrip. destruct (lstrip_suffix (rev s)) as [l Hl].
  exists (rev l).
  rewrite <- rev_app_distr, <- Hl. symmetry. apply rev_involutive.
Qed.

Lemma rstrip_idempotent (s : str) : rstrip (rstrip s) = rstrip s.
Proof.
  unfold rstrip. rewrite rev_involutive.
  now rewrite (lstrip_fixed _ (lstrip_trimmed (rev s))).
Qed.

Lemma strip_trimmed_left (s : str) : trimmed_left (strip s).
Proof. apply rstrip_trimmed_left, lstrip_trimmed. Qed.

Lemma strip_idempotent (s : str) : strip (strip s) = strip s.
Proof.
  unfold strip at 1.
  rewrite (lstrip_fixed _ (strip_trimmed_left s)).
  apply rstrip_idempotent.
Qed.

Lemma strip_infix (s : str) : exists l r, s = l ++ strip s ++ r.
Proof.
  unfold strip.
  destruct (lstrip_suffix s) as [l Hl].
  destruct (rstrip_prefix (lstrip s)) as [r Hr].
  exists l, r. now rewrite <- Hr.
Qed.

Lemma strip_length (s : str) : length (strip s) <= length s.
Proof.
  destruct (strip_infix s) as (l & r & H).
  rewrite H at 2. rewrite !length_app. lia.
Qed.

(** *** The three steps of the normalizer, one at a time *)

Lemma clean_json_response_steps (x : str) :
  clean_json_response x = strip (remove_closer (remove_opener (strip x))).
Proof. reflexivity. Qed.

Lemma fence_json_fence (s : str) :
  startswith s fence_json = true -> startswith s fence = true.
Proof.
  rewrite !startswith_app. intros [r ->].
  exists (lit "json" ++ r). reflexivity.
Qed.

Lemma remove_opener_spec (s : str) :
  (exists b, s = fence_json ++ b /\ remove_opener s = b)
  \/ (startswith s fence_json = false
      /\ exists b, s = fence ++ b /\ remove_opener s = b)
  \/ (startswith s fence = false /\ remove_opener s = s).
Proof.
  unfold remove_opener.
  destruct (startswith s fence_json) eqn:Hj.
  - left. apply startswith_app in Hj as [b ->]. exists b. split; [reflexivity|].
    apply (slice_from_app fence_json b).
  - right. destruct (startswith s fence) eqn:Hf.
    + left. split; [reflexivity|].
      apply startswith_app in Hf as [b ->]. exists b. split; [reflexivity|].
      apply (slice_from_app fence b).
    + right. split; reflexivity.
Qed.

Lemma remove_closer_spec (s : str) :
  (exists b, s = b ++ fence /\ remove_closer s = b)
  \/ (endswith s fence = false /\ remove_closer s = s).
Proof.
  unfold remove_closer. destruct (endswith s fence) eqn:He.
  - left. apply endswith_app in He as [b ->]. exists b. split; [reflexivity|].
    apply (slice_to_neg_app b fence).
  - right. split; reflexivity.
Qed.

Lemma remove_opener_length (s : str) :
  length (remove_opener s) <= length s
  /\ (startswith s fence = true -> length (remove_opener s) < length s).
Proof.
  destruct (remove_opener_spec s)
    as [(b & Hs & ->) | [(_ & b & Hs & ->) | (Hf & ->)]].
  - rewrite Hs, length_app. simpl. lia.
  - rewrite Hs, length_app. simpl. lia.
  - rewrite Hf. split; [lia | discriminate].
Qed.

Lemma remove_closer_length (s : str) :
  length (remove_closer s) <= length s
  /\ (endswith s fence = true -> length (remove_closer s) < length s).
Proof.
  destruct (remove_closer_spec s) as [(b & Hs & ->) | (Hf & ->)].
  - rewrite Hs, length_app. simpl. lia.
  - rewrite Hf. split; [lia | discriminate].
Qed.

Lemma remove_opener_infix (s : str) : exists l, s = l ++ remove_opener s.
Proof.
  destruct (remove_opener_spec s)
    as [(b & Hs & ->) | [(_ & b & Hs & ->) | (_ & ->)]].
  - now exists fence_json.
  - now exists fence.
  - now exists [].
Qed.

Lemma remove_closer_infix (s : str) : exists r, s = remove_closer s ++ r.
Proof.
  destruct (remove_closer_spec s) as [(b & Hs & ->) | (_ & ->)].
  - now exists fence.
  - exists []. now rewrite app_nil_r.
Qed.

Lemma clean_json_response_trimmed (x : str) :
  strip (clean_json_response x) = clean_json_response x.
Proof. rewrite clean_json_response_steps. apply strip_idempotent. Qed.

Lemma clean_json_response_infix (x : str) :
  exists pre post, x = pre ++ clean_json_response x ++ post.
Proof.
  rewrite clean_json_response_steps.
  destruct (strip_infix x) as (l1 & r1 & H1).
  destruct (remove_opener_infix (strip x)) as (l2 & H2).
  destruct (remove_closer_infix (remove_opener (strip x))) as (r2 & H3).
  destruct (strip_infix (remove_closer (remove_opener (strip x))))
    as (l3 & r3 & H4).
  exists (l1 ++ l2 ++ l3), (r3 ++ r2 ++ r1).
  rewrite H1 at 1. rewrite H2 at 1. rewrite H3 at 1. rewrite H4 at 1.
  now rewrite <- !app_assoc.
Qed.

(** *** Idempotence of the normalizer *)

Lemma clean_json_response_shrinks (y : str) :
  strip y = y ->
  startswith y fence = true \/ endswith y fence = true ->
  length (clean_json_response y) < length y.
Proof.
  intros Hy Hf. rewrite clean_json_response_steps, Hy.
  pose proof (strip_length (remove_closer (remove_opener y))) as H1.
  destruct (remove_closer_length (remove_opener y)) as [H2 H2'].
  destruct (remove_opener_length y) as [H3 H3'].
  destruct (startswith y fence) eqn:Hs.
  - specialize (H3' eq_refl). lia.
  - destruct Hf as [Hf | Hf]; [discriminate|].
    assert (remove_opener y = y) as Ho.
    { unfold remove_opener. rewrite Hs.
      destruct (startswith y fence_json) eqn:Hj; [|reflexivity].
      apply fence_json_fence in Hj. congruence. }
    rewrite Ho in *. specialize (H2' Hf). lia.
Qed.

Lemma clean_json_response_fixed (y : str) :
  strip y = y ->
  startswith y fence = false -> endswith y fence = false ->
  clean_json_response y = y.
Proof.
  intros Hy Hs He. rewrite clean_json_response_steps, Hy.
  unfold remove_opener. rewrite Hs.
  destruct (startswith y fence_json) eqn:Hj.
  - apply fence_json_fence in Hj. congruence.
  - unfold remove_closer. rewrite He. exact Hy.
Qed.

(** C8, counterexample: on a JSON object wrapped in two fenced blocks the
    first pass removes the outer block only, and a second pass changes the
    text again. *)
Lemma clean_json_response_not_idempotent :
  clean_json_response double_wrapped = lit "```json" ++ nl ++ lit "{}" ++ nl ++ lit "```"
  /\ clean_json_response (clean_json_response double_wrapped) = lit "{}"
  /\ clean_json_response (clean_json_response double_wrapped)
     <> clean_json_response double_wrapped.
Proof.
  repeat split; try (vm_compute; reflexivity).
  vm_compute. discriminate.
Qed.

(** C8, amended: a second pass of the normalizer leaves the result of the
    first unchanged exactly when that result neither begins nor ends with
    a fence. *)
Theorem clean_json_response_idempotent_iff (x : str) :
  clean_json_response (clean_json_response x) = clean_json_response x
  <-> startswith (clean_json_response x) fence = false
      /\ endswith (clean_json_response x) fence = false.
Proof.
  pose proof (clean_json_response_trimmed x) as Ht.
  split.
  - intros Hfix.
    destruct (startswith (clean_json_response x) fence) eqn:Hs;
      destruct (endswith (clean_json_response x) fence) eqn:He;
      try (split; reflexivity);
      exfalso;
      (assert (length (clean_json_response (clean_json_response x))
               < length (clean_json_response x)) as Hlt
         by (apply clean_json_response_shrinks; [exact Ht | auto]));
      rewrite Hfix in Hlt; lia.
  - intros [Hs He]. now apply clean_json_response_fixed.
Qed.

(** C8, witness: an input on which the second pass changes nothing. *)
Lemma clean_json_response_idempotent_iff_witness :
  clean_json_response (clean_json_response (lit "  ```json {} ```  "))
  = clean_json_response (lit "  ```json {} ```  ").
Proof.
  apply (proj2 (clean_json_response_idempotent_iff (lit "  ```json {} ```  "))).
  split; vm_compute; reflexivity.
Defined.

(** *** What the normalizer removes *)

(** C9, counterexample: for a block tagged [python] only the three
    backquotes of the opener are removed; the tag stays in the result. *)
Lemma clean_json_response_keeps_other_tag :
  strip python_fenced = lit "```python" ++ nl ++ lit "{}" ++ nl ++ lit "```"
  /\ clean_json_response python_fenced = lit "python" ++ nl ++ lit "{}"
  /\ clean_json_response python_fenced <> lit "{}".
Proof.
  repeat split; try (vm_compute; reflexivity).
  vm_compute. discriminate.
Qed.

(** C9, amended: from the trimmed input the normalizer removes the opener
    [```json] if the text starts with it, otherwise just the three
    backquotes of a fence if the text starts with one (whatever follows
    them stays), otherwise nothing; then a closing fence at the end if there
    is one; what is left is trimmed again, and is a contiguous piece of the
    input. *)
Theorem clean_json_response_fences (x : str) :
  exists body inner,
    (strip x = fence_json ++ body
     \/ (startswith (strip x) fence_json = false /\ strip x = fence ++ body)
     \/ (startswith (strip x) fence = false /\ strip x = body))
    /\ (body = inner ++ fence \/ (endswith body fence = false /\ body = inner))
    /\ clean_json_response x = strip inner
    /\ exists pre post, x = pre ++ clean_json_response x ++ post.
Proof.
  exists (remove_opener (strip x)), (remove_closer (remove_opener (strip x))).
  split; [|split; [|split]].
  - destruct (remove_opener_spec (strip x))
      as [(b & Hs & Hb) | [(Hj & b & Hs & Hb) | (Hf & Hb)]].
    + left. now rewrite Hb.
    + right; left. split; [exact Hj | now rewrite Hb].
    + right; right. split; [exact Hf | now rewrite Hb].
  - destruct (remove_closer_spec (remove_opener (strip x)))
      as [(b & Hs & Hb) | (He & Hb)].
    + left. now rewrite Hb.
    + right. split; [exact He | now rewrite Hb].
  - apply clean_json_response_steps.
  - apply clean_json_response_infix.
Qed.

(** ** Properties of values and floats *)

Lemma str_eqb_eq (a b : str) : str_eqb a b = true <-> a = b.
Proof.
  revert b; induction a as [|x a IH]; intros [|y b]; simpl;
    try (split; [discriminate | intros H; discriminate H]).
  - split; reflexivity.
  - rewrite andb_true_iff, char_eqb_eq, IH. split.
    + now intros [-> ->].
    + intros H. injection H as -> ->. split; reflexivity.
Qed.

Lemma py_in_strs_valid (c : value) :
  py_in_strs c [lit "spam"; lit "important"; lit "neutral"] = true ->
  valid_category c.
Proof.
  unfold py_in_strs, valid_category. cbn [existsb].
  rewrite !orb_true_iff. destruct c; cbn [py_eq_str];
    try (intros [H | [H | [H | H]]]; discriminate H).
  rewrite !str_eqb_eq. intros [-> | [-> | [-> | H]]]; auto. discriminate H.
Qed.

(** [x < x] is false for every float, the NaN included. *)
Lemma SFltb_irrefl (x : float) : SFltb x x = false.
Proof.
  unfold SFltb, SFcompare.
  destruct x as [s | s | | s m e]; try reflexivity.
  - now destruct s.
  - rewrite Z.compare_refl, Pos.compare_cont_refl. now destruct s.
Qed.

(** ** Properties of the nodes *)

Section WorkflowFacts.

Context `{rt : Runtime}.
Variable settings : Settings.

Ltac step_bind H :=
  match type of H with
  | bind_result ?c _ = _ =>
      let E := fresh "E" in
      destruct c eqn:E; cbn [bind_result] in H; [|discriminate H]
  end.

(** What a successful [try] body of the classification node has seen. *)
Lemma classify_try_ok (state state' : EmailClassificationState)
    (response : AIMessage) :
  classify_try state response = Ok state' ->
  exists v c x f r k,
    decodes_to response v
    /\ py_getitem v (lit "category") = Ok c
    /\ py_in_strs c valid_categories = true
    /\ py_getitem v (lit "confidence") = Ok x
    /\ py_float x = Ok f
    /\ py_getitem v (lit "reasoning") = Ok r
    /\ py_getitem v (lit "keywords") = Ok k
    /\ state' = updated state c f r k (retry_count state) (lit "classified").
Proof.
  unfold classify_try, call_clean_json_response. intros H.
  destruct (content response) as [| | | |text| |] eqn:Et;
    cbn [bind_result] in H; try discriminate H.
  destruct (json_loads _) as [v|] eqn:Ev; cbn [bind_result] in H;
    [|discriminate H].
  step_bind H. destruct a; cbn [negb] in H; [|discriminate H].
  step_bind H.
  destruct (py_in_strs a valid_categories) eqn:Ec; cbn [negb] in H;
    [|discriminate H].
  do 3 step_bind H.
  destruct (py_getitem v (lit "keywords")) as [k|] eqn:Ek;
    cbn [bind_result] in H; [|discriminate H].
  injection H as <-.
  exists v, a, a0, a1, a2, k.
  split; [now exists text|]. repeat split; auto.
Qed.

(** The same for the reanalysis node. *)
Lemma reanalyze_try_ok (state state' : EmailClassificationState)
    (response : AIMessage) :
  reanalyze_try state response = Ok state' ->
  exists v c x f r k,
    decodes_to response v
    /\ py_getitem v (lit "category") = Ok c
    /\ py_in_strs c valid_categories = true
    /\ py_getitem v (lit "confidence") = Ok x
    /\ py_float x = Ok f
    /\ py_getitem v (lit "reasoning") = Ok r
    /\ py_getitem v (lit "keywords") = Ok k
    /\ state' = updated state c f r k (retry_count state + 1) (lit "reanalyzed").
Proof.
  unfold reanalyze_try, call_clean_json_response. intros H.
  destruct (content response) as [| | | |text| |] eqn:Et;
    cbn [bind_result] in H; try discriminate H.
  destruct (json_loads _) as [v|] eqn:Ev; cbn [bind_result] in H;
    [|discriminate H].
  step_bind H.
  destruct (py_in_strs a valid_categories) eqn:Ec; cbn [negb] in H;
    [|discriminate H].
  do 3 step_bind H.
  destruct (py_getitem v (lit "keywords")) as [k|] eqn:Ek;
    cbn [bind_result] in H; [|discriminate H].
  injection H as <-.
  exists v, a, a0, a1, a2, k.
  split; [now exists text|]. repeat split; auto.
Qed.

(** The classification node, with the monad unfolded. *)
Lemma classify_email_node_eq (state : EmailClassificationState) (w : World) :
  classify_email_node settings state w =
  match get_llm settings with
  | Raise e => (Raise e, w)
  | Ok llm =>
      (match ainvoke llm (llm_calls w) (classify_messages state) with
       | LlmRaises e => classify_except state None e
       | LlmReturns response =>
           match classify_try state response with
           | Ok state' => Ok state'
           | Raise e => classify_except state (Some response) e
           end
       end, called w)
  end.
Proof.
  unfold classify_email_node, bindM, lift, attempt, llm_ainvoke, called,
    classify_messages.
  destruct (get_llm settings) as [llm|e]; [|reflexivity].
  destruct (ainvoke llm (llm_calls w) _); reflexivity.
Qed.

(** The reanalysis node, with the monad unfolded. *)
Lemma reanalyze_node_eq (state : EmailClassificationState) (w : World) :
  reanalyze_node settings state w =
  match get_llm settings with
  | Raise e => (Raise e, w)
  | Ok llm =>
      (Ok match ainvoke llm (llm_calls w) (reanalyze_messages state) with
          | LlmRaises e => reanalyze_except state e
          | LlmReturns response =>
              match reanalyze_try state response with
              | Ok state' => state'
              | Raise e => reanalyze_except state e
              end
          end, called w)
  end.
Proof.
  unfold reanalyze_node, bindM, lift, attempt, llm_ainvoke, ret, called,
    reanalyze_messages.
  destruct (get_llm settings) as [llm|e]; [|reflexivity].
  destruct (ainvoke llm (llm_calls w) _); reflexivity.
Qed.


Lemma classify_except_bound (state : EmailClassificationState)
    (response : AIMessage) (e : exn) :
  exists state',
    classify_except state (Some response) e = Ok state'
    /\ same_inputs state state'
    /\ retry_count state' = retry_count state
    /\ category state' = VStr (lit "neutral")
    /\ confidence state' = f0_3
    /\ keywords state' = VList []
    /\ ((is_JSONDecodeError e = true
         /\ processing_stage state' = lit "error_json_parse"
         /\ reasoning state' = VStr (lit "Unable to parse LLM response"))
        \/ (is_JSONDecodeError e = false
            /\ processing_stage state' = lit "error"
            /\ reasoning state'
               = VStr (lit "Error during classification: "
                       ++ firstn 100 (exn_str e)))).
Proof.
  unfold classify_except, same_inputs.
  destruct (is_JSONDecodeError e); eexists; repeat split; auto.
Qed.

Lemma classify_except_unbound (state : EmailClassificationState) (e : exn) :
  (is_JSONDecodeError e = true
   /\ classify_except state None e = Raise (UnboundLocalError (lit "response")))
  \/ (is_JSONDecodeError e = false
      /\ classify_except state None e
         = Ok (updated state (VStr (lit "neutral")) f0_3
                 (VStr (lit "Error during classification: "
                        ++ firstn 100 (exn_str e)))
                 (VList []) (retry_count state) (lit "error"))).
Proof.
  unfold classify_except. destruct (is_JSONDecodeError e); auto.
Qed.

(** Whatever the classification node returns satisfies [after_classify]. *)
Lemma classify_email_node_post (llm : BaseChatModel)
    (state state' : EmailClassificationState) (w w' : World) :
  get_llm settings = Ok llm ->
  classify_email_node settings state w = (Ok state', w') ->
  w' = called w /\ after_classify llm (llm_calls w) state state'.
Proof.
  intros Hllm. rewrite classify_email_node_eq, Hllm.
  intros H. injection H as H <-. split; [reflexivity|].
  destruct (ainvoke llm (llm_calls w) _) as [response|e] eqn:Hcall.
  - destruct (classify_try state response) as [s1|e] eqn:Htry.
    + injection H as ->.
      apply classify_try_ok in Htry
        as (v & c & x & f & r & k & Hv & Hc & Hin & Hx & Hf & _ & _ & ->).
      repeat split. left. repeat split.
      * now apply py_in_strs_valid.
      * exists (classify_messages state), response, v, x. auto.
    + destruct (classify_except_bound state response e)
        as (s1 & Hs1 & Hin & Hrc & Hcat & Hconf & Hkw & Hstage).
      rewrite Hs1 in H. injection H as ->.
      split; [exact Hin|]. split; [exact Hrc|]. right.
      destruct Hstage as [(_ & Hst & Hre) | (_ & Hst & _)]; [left | right]; auto.
  - destruct (classify_except_unbound state e) as [(_ & He) | (_ & He)];
      rewrite He in H; [discriminate H|].
    injection H as <-. repeat split. right; right. repeat split.
Qed.

(** With a model at hand, the classification node returns a state unless
    the model call itself raised a JSON decoding error. *)
Lemma classify_email_node_outcome (llm : BaseChatModel)
    (state : EmailClassificationState) (w : World) :
  get_llm settings = Ok llm ->
  (exists state', classify_email_node settings state w = (Ok state', called w))
  \/ (ainvoke llm (llm_calls w) (classify_messages state)
      = LlmRaises JSONDecodeError
      /\ classify_email_node settings state w
         = (Raise (UnboundLocalError (lit "response")), called w)).
Proof.
  intros Hllm. rewrite classify_email_node_eq, Hllm.
  destruct (ainvoke llm (llm_calls w) _) as [response|e] eqn:Hcall.
  - left. destruct (classify_try state response) as [s1|e] eqn:Htry.
    + now exists s1.
    + destruct (classify_except_bound state response e) as (s1 & -> & _).
      now exists s1.
  - destruct (classify_except_unbound state e) as [(Hj & ->) | (_ & ->)].
    + right. destruct e; try discriminate Hj. now split.
    + left. eexists. reflexivity.
Qed.

(** With a model at hand, the reanalysis node always returns a state, and
    the state satisfies [after_reanalyze]. *)
Lemma reanalyze_node_post (llm : BaseChatModel)
    (state : EmailClassificationState) (w : World) :
  get_llm settings = Ok llm ->
  exists state',
    reanalyze_node settings state w = (Ok state', called w)
    /\ after_reanalyze llm (llm_calls w) state state'.
Proof.
  intros Hllm. rewrite reanalyze_node_eq, Hllm.
  eexists. split; [reflexivity|].
  assert (after_reanalyze llm (llm_calls w) state
            (reanalyze_except state JSONDecodeError)) as Hfail.
  { repeat split. right. repeat split. }
  destruct (ainvoke llm (llm_calls w) _) as [response|e] eqn:Hcall;
    [|exact Hfail].
  destruct (reanalyze_try state response) as [s1|e] eqn:Htry; [|exact Hfail].
  apply reanalyze_try_ok in Htry
    as (v & c & x & f & r & k & Hv & Hc & Hin & Hx & Hf & _ & _ & ->).
  repeat split. left. repeat split.
  - now apply py_in_strs_valid.
  - exists (reanalyze_messages state), response, v, x. auto.
Qed.

(** ** Properties of the graph *)

Lemma nodes_classify :
  dict_get (nodes (create_classification_workflow settings)) (lit "classify")
  = Some (classify_email_node settings).
Proof. reflexivity. Qed.

Lemma nodes_reanalyze :
  dict_get (nodes (create_classification_workflow settings)) (lit "reanalyze")
  = Some (reanalyze_node settings).
Proof. reflexivity. Qed.

Lemma branches_classify :
  dict_get (branches (create_classification_workflow settings)) (lit "classify")
  = Some (should_reanalyze settings,
          [ (lit "reanalyze", lit "reanalyze");
            (lit "end", END);
            (lit "max_retries", END) ]).
Proof. reflexivity. Qed.

Lemma next_node_classify (state : EmailClassificationState) :
  next_node (create_classification_workflow settings) (lit "classify") state
  = Ok (if str_eqb (should_reanalyze settings state) (lit "reanalyze")
        then Some (lit "reanalyze") else None).
Proof.
  unfold next_node. rewrite branches_classify. unfold should_reanalyze.
  destruct (1 <=? retry_count state)%Z; [reflexivity|].
  destruct (SFltb _ _); reflexivity.
Qed.

Lemma next_node_reanalyze (state : EmailClassificationState) :
  next_node (create_classification_workflow settings) (lit "reanalyze") state
  = Ok None.
Proof. reflexivity. Qed.

Lemma run_from_step (g : StateGraph) (fuel : nat) (name : str)
    (state : EmailClassificationState) (w : World) :
  run_from g (S fuel) name state w =
  match dict_get (nodes g) name with
  | None => (Raise (KeyError name), w)
  | Some action =>
      match action state (entered name w) with
      | (Raise e, w1) => (Raise e, w1)
      | (Ok state', w1) =>
          match next_node g name state' with
          | Raise e => (Raise e, w1)
          | Ok None => (Ok state', w1)
          | Ok (Some name') => run_from g fuel name' state' w1
          end
      end
  end.
Proof.
  cbn [run_from]. destruct (dict_get (nodes g) name) as [action|];
    [|reflexivity].
  unfold bindM, enter, lift, ret, entered.
  destruct (action state _) as [[s1|e] w1]; [|reflexivity].
  destruct (next_node g name s1) as [[n|]|e]; reflexivity.
Qed.

(** The run of the compiled workflow, spelled out: [classify], then
    [reanalyze] if the routing says so, then the end. *)
Lemma graph_ainvoke_workflow (state : EmailClassificationState) (w : World) :
  graph_ainvoke (create_classification_workflow settings) state w =
  match classify_email_node settings state (entered (lit "classify") w) with
  | (Raise e, w1) => (Raise e, w1)
  | (Ok state1, w1) =>
      if str_eqb (should_reanalyze settings state1) (lit "reanalyze")
      then reanalyze_node settings state1 (entered (lit "reanalyze") w1)
      else (Ok state1, w1)
  end.
Proof.
  unfold graph_ainvoke.
  change (entry_point (create_classification_workflow settings))
    with (Some (lit "classify")).
  unfold recursion_limit. rewrite run_from_step, nodes_classify.
  destruct (classify_email_node settings state _) as [[s1|e] w1];
    [|reflexivity].
  rewrite next_node_classify.
  destruct (str_eqb (should_reanalyze settings s1) (lit "reanalyze"));
    [|reflexivity].
  rewrite run_from_step, nodes_reanalyze.
  destruct (reanalyze_node settings s1 _) as [[s2|e] w2]; [|reflexivity].
  now rewrite next_node_reanalyze.
Qed.

(** Every run of the workflow, by cases: the configuration is refused; or
    the first model call raised a JSON decoding error; or [classify] ran
    alone; or [classify] and then [reanalyze] ran. *)
Lemma workflow_outcome (state : EmailClassificationState) (w : World)
    (r : result EmailClassificationState) (w' : World) :
  graph_ainvoke (create_classification_workflow settings) state w = (r, w') ->
  (exists e, get_llm settings = Raise e /\ r = Raise e
             /\ w' = entered (lit "classify") w)
  \/ exists llm,
       get_llm settings = Ok llm
       /\ ((ainvoke llm (llm_calls w) (classify_messages state)
            = LlmRaises JSONDecodeError
            /\ r = Raise (UnboundLocalError (lit "response"))
            /\ w' = called (entered (lit "classify") w))
           \/ exists state1,
                after_classify llm (llm_calls w) state state1
                /\ ((str_eqb (should_reanalyze settings state1) (lit "reanalyze")
                     = false
                     /\ r = Ok state1
                     /\ w' = called (entered (lit "classify") w))
                    \/ (str_eqb (should_reanalyze settings state1)
                                (lit "reanalyze") = true
                        /\ exists state2,
                             after_reanalyze llm (S (llm_calls w)) state1 state2
                             /\ r = Ok state2
                             /\ w' = called (entered (lit "reanalyze")
                                       (called (entered (lit "classify") w)))))).
Proof.
  rewrite graph_ainvoke_workflow.
  destruct (get_llm settings) as [llm|e0] eqn:Hllm.
  - intros H. right. exists llm. split; [reflexivity|].
    destruct (classify_email_node_outcome llm state
                (entered (lit "classify") w) Hllm)
      as [(s1 & Hs1) | (Hcall & Hraise)].
    + right. exists s1.
      apply (classify_email_node_post llm) in Hs1 as Hpost; [|exact Hllm].
      destruct Hpost as [_ Hpost]. split; [exact Hpost|].
      rewrite Hs1 in H.
      destruct (str_eqb (should_reanalyze settings s1) (lit "reanalyze")).
      * right. split; [reflexivity|].
        destruct (reanalyze_node_post llm s1
                    (entered (lit "reanalyze")
                       (called (entered (lit "classify") w))) Hllm)
          as (s2 & Hs2 & Hpost2).
        rewrite Hs2 in H. injection H as <- <-.
        exists s2. split; [exact Hpost2|]. split; reflexivity.
      * left. injection H as <- <-. split; [reflexivity|]. split; reflexivity.
    + left. rewrite Hraise in H. injection H as <- <-.
      split; [exact Hcall|]. split; reflexivity.
  - intros H. left. exists e0.
    rewrite classify_email_node_eq, Hllm in H. injection H as <- <-.
    repeat split.
Qed.

(** [classify_email] returns the dict of the state the graph ends in. *)
Lemma classify_email_eq (email_id subject body sender : str) (w : World) :
  classify_email settings email_id subject body sender w =
  match graph_ainvoke (create_classification_workflow settings)
          (initial_state email_id subject body sender) w with
  | (Ok final_state, w') => (Ok (result_of final_state), w')
  | (Raise e, w') => (Raise e, w')
  end.
Proof.
  unfold classify_email, bindM, ret.
  destruct (graph_ainvoke _ _ w) as [[s1|e] w1]; reflexivity.
Qed.

Lemma classify_email_ok (email_id subject body sender : str) (w w' : World)
    (r : list (str * value)) :
  classify_email settings email_id subject body sender w = (Ok r, w') ->
  exists final_state,
    graph_ainvoke (create_classification_workflow settings)
      (initial_state email_id subject body sender) w = (Ok final_state, w')
    /\ r = result_of final_state.
Proof.
  rewrite classify_email_eq.
  destruct (graph_ainvoke _ _ w) as [[s1|e] w1]; intros H;
    [|discriminate H].
  injection H as <- <-. now exists s1.
Qed.


Lemma after_classify_category (llm : BaseChatModel) (n : nat)
    (s s' : EmailClassificationState) :
  after_classify llm n s s' -> valid_category (category s').
Proof.
  intros (_ & _ & [(_ & H & _) | [(_ & H & _) | (_ & H & _)]]);
    [exact H | |]; rewrite H; right; right; reflexivity.
Qed.

Lemma after_reanalyze_category (llm : BaseChatModel) (n : nat)
    (s s' : EmailClassificationState) :
  after_reanalyze llm n s s' ->
  valid_category (category s) -> valid_category (category s').
Proof.
  intros (_ & _ & [(_ & H & _) | (_ & H & _)]) Hs; [exact H|].
  now rewrite H.
Qed.

Lemma after_classify_stage (llm : BaseChatModel) (n : nat)
    (s s' : EmailClassificationState) :
  after_classify llm n s s' ->
  In (processing_stage s')
     [lit "classified"; lit "error_json_parse"; lit "error"].
Proof.
  intros (_ & _ & [(H & _) | [(H & _) | (H & _)]]); rewrite H; simpl; auto.
Qed.

Lemma after_reanalyze_stage (llm : BaseChatModel) (n : nat)
    (s s' : EmailClassificationState) :
  after_reanalyze llm n s s' ->
  In (processing_stage s') [lit "reanalyzed"; lit "reanalysis_failed"].
Proof.
  intros (_ & _ & [(H & _) | (H & _)]); rewrite H; simpl; auto.
Qed.

(** ** The routing decision *)

(** C3: with [retry_count >= 1] the routing stops whatever the
    confidence; otherwise it continues to the reanalysis if the confidence
    is strictly below [low_confidence_threshold] and stops if not; so with
    [retry_count = 0] and a confidence equal to the threshold it stops. The
    threshold defaults to 0.50. *)
Theorem should_reanalyze_routing (state : EmailClassificationState) :
  ((1 <= retry_count state)%Z ->
     should_reanalyze settings state = lit "max_retries"
     /\ route settings state = Ok None)
  /\ ((retry_count state < 1)%Z ->
      SFltb (confidence state) (low_confidence_threshold settings) = true ->
      should_reanalyze settings state = lit "reanalyze"
      /\ route settings state = Ok (Some (lit "reanalyze")))
  /\ ((retry_count state < 1)%Z ->
      SFltb (confidence state) (low_confidence_threshold settings) = false ->
      should_reanalyze settings state = lit "end"
      /\ route settings state = Ok None)
  /\ (retry_count state = 0%Z ->
      confidence state = low_confidence_threshold settings ->
      should_reanalyze settings state = lit "end"
      /\ route settings state = Ok None)
  /\ low_confidence_threshold default_settings = f0_5.
Proof.
  unfold route. rewrite next_node_classify.
  assert (forall b : bool,
            (1 <=? retry_count state)%Z = false ->
            SFltb (confidence state) (low_confidence_threshold settings) = b ->
            should_reanalyze settings state
            = (if b then lit "reanalyze" else lit "end")) as Hlow.
  { intros b Hr Hc. unfold should_reanalyze. now rewrite Hr, Hc. }
  repeat split.
  - unfold should_reanalyze. apply Z.leb_le in H. now rewrite H.
  - unfold should_reanalyze. apply Z.leb_le in H. now rewrite H.
  - apply (Hlow true); [apply Z.leb_gt|]; assumption.
  - rewrite (Hlow true); [reflexivity | apply Z.leb_gt |]; assumption.
  - apply (Hlow false); [apply Z.leb_gt|]; assumption.
  - rewrite (Hlow false); [reflexivity | apply Z.leb_gt |]; assumption.
  - apply (Hlow false); [apply Z.leb_gt; lia|].
    rewrite H0. apply SFltb_irrefl.
  - rewrite (Hlow false); [reflexivity | apply Z.leb_gt; lia |].
    rewrite H0. apply SFltb_irrefl.
Qed.

(** ** The run of the workflow *)

(** C4: a run of the workflow enters [classify] once and then [reanalyze]
    at most once, and never [classify] again; it calls the model at most
    twice; [retry_count] starts at 0 and ends at 0 or 1, the number of
    reanalysis runs; the classification node keeps [retry_count] and the
    reanalysis node adds exactly 1 to it. *)
Theorem reanalysis_runs_at_most_once :
  (forall email_id subject body sender r w',
      graph_ainvoke (create_classification_workflow settings)
        (initial_state email_id subject body sender) initial_world = (r, w') ->
      (rev (visited w') = [lit "classify"]
       \/ rev (visited w') = [lit "classify"; lit "reanalyze"])
      /\ runs_of (lit "reanalyze") w' <= 1
      /\ llm_calls w' <= 2
      /\ retry_count (initial_state email_id subject body sender) = 0%Z
      /\ forall final_state,
           r = Ok final_state ->
           retry_count final_state = Z.of_nat (runs_of (lit "reanalyze") w')
           /\ (retry_count final_state = 0 \/ retry_count final_state = 1)%Z)
  /\ (forall state state' w w',
         classify_email_node settings state w = (Ok state', w') ->
         retry_count state' = retry_count state)
  /\ (forall state state' w w',
         reanalyze_node settings state w = (Ok state', w') ->
         retry_count state' = (retry_count state + 1)%Z).
Proof.
  split; [|split].
  - intros email_id subject body sender r w' Hrun.
    apply workflow_outcome in Hrun
      as [(e & _ & -> & ->)
         | (llm & _ & [(_ & -> & ->)
                      | (s1 & (_ & Hr1 & _)
                         & [(_ & -> & ->)
                           | (_ & s2 & (_ & Hr2 & _) & -> & ->)])])].
    + split; [left; reflexivity|]. split; [vm_compute; lia|].
      split; [simpl; lia|]. split; [reflexivity|].
      intros s Hs. discriminate Hs.
    + split; [left; reflexivity|]. split; [vm_compute; lia|].
      split; [simpl; lia|]. split; [reflexivity|].
      intros s Hs. discriminate Hs.
    + split; [left; reflexivity|]. split; [vm_compute; lia|].
      split; [simpl; lia|]. split; [reflexivity|].
      intros s Hs. injection Hs as <-. rewrite Hr1.
      split; [reflexivity | left; reflexivity].
    + split; [right; reflexivity|]. split; [vm_compute; lia|].
      split; [simpl; lia|]. split; [reflexivity|].
      intros s Hs. injection Hs as <-. rewrite Hr2, Hr1.
      split; [reflexivity | right; reflexivity].
  - intros state state' w w' H.
    destruct (get_llm settings) as [llm|e] eqn:Hllm.
    + pose proof (classify_email_node_post llm _ _ _ _ Hllm H)
        as [_ (_ & Hr & _)].
      exact Hr.
    + rewrite classify_email_node_eq, Hllm in H. discriminate H.
  - intros state state' w w' H.
    destruct (get_llm settings) as [llm|e] eqn:Hllm.
    + destruct (reanalyze_node_post llm state w Hllm)
        as (s2 & Hs2 & (_ & Hr & _)).
      rewrite Hs2 in H. now injection H as <- _.
    + rewrite reanalyze_node_eq, Hllm in H. discriminate H.
Qed.

(** ** What the caller receives *)

(** C5: the [category] of the dict returned to the caller is one of
    [spam], [important], [neutral]; the classification node always leaves
    such a category; the reanalysis node leaves such a category or the one
    it found, so a valid category stays valid. *)
Theorem category_always_valid :
  (forall email_id subject body sender w r w',
      classify_email settings email_id subject body sender w = (Ok r, w') ->
      exists c, dict_get r (lit "category") = Some c /\ valid_category c)
  /\ (forall state state' w w',
         classify_email_node settings state w = (Ok state', w') ->
         valid_category (category state'))
  /\ (forall state state' w w',
         reanalyze_node settings state w = (Ok state', w') ->
         (valid_category (category state')
          \/ category state' = category state)
         /\ (valid_category (category state) ->
             valid_category (category state'))).
Proof.
  split; [|split].
  - intros email_id subject body sender w r w' H.
    apply classify_email_ok in H as (final & Hrun & ->).
    exists (category final). split; [reflexivity|].
    apply workflow_outcome in Hrun
      as [(e & _ & Hr & _)
         | (llm & _ & [(_ & Hr & _)
                      | (s1 & H1 & [(_ & Hr & _)
                                   | (_ & s2 & H2 & Hr & _)])])];
      try discriminate Hr; injection Hr as ->.
    + exact (after_classify_category _ _ _ _ H1).
    + exact (after_reanalyze_category _ _ _ _ H2
               (after_classify_category _ _ _ _ H1)).
  - intros state state' w w' H.
    destruct (get_llm settings) as [llm|e] eqn:Hllm.
    + pose proof (classify_email_node_post llm _ _ _ _ Hllm H) as [_ Hpost].
      exact (after_classify_category _ _ _ _ Hpost).
    + rewrite classify_email_node_eq, Hllm in H. discriminate H.
  - intros state state' w w' H.
    destruct (get_llm settings) as [llm|e] eqn:Hllm.
    + destruct (reanalyze_node_post llm state w Hllm) as (s2 & Hs2 & H2).
      rewrite Hs2 in H. injection H as <- _.
      split; [|exact (after_reanalyze_category _ _ _ _ H2)].
      destruct H2 as (_ & _ & [(_ & Hv & _) | (_ & Hc & _)]); auto.
    + rewrite reanalyze_node_eq, Hllm in H. discriminate H.
Qed.

(** C10: the dict [classify_email] returns has exactly the keys
    [email_id], [category], [confidence], [reasoning], [keywords],
    [processing_stage], and its [processing_stage] is one of [classified],
    [error_json_parse], [error], [reanalyzed], [reanalysis_failed], never
    [initialized]. *)
Theorem classify_email_result_shape
    (email_id subject body sender : str) (w w' : World)
    (r : list (str * value)) :
  classify_email settings email_id subject body sender w = (Ok r, w') ->
  map fst r = result_keys
  /\ exists stage,
       dict_get r (lit "processing_stage") = Some (VStr stage)
       /\ In stage [lit "classified"; lit "error_json_parse"; lit "error";
                    lit "reanalyzed"; lit "reanalysis_failed"]
       /\ stage <> lit "initialized".
Proof.
  intros H. apply classify_email_ok in H as (final & Hrun & ->).
  split; [reflexivity|].
  exists (processing_stage final). split; [reflexivity|].
  assert (In (processing_stage final)
             [lit "classified"; lit "error_json_parse"; lit "error";
              lit "reanalyzed"; lit "reanalysis_failed"]) as Hin.
  { apply workflow_outcome in Hrun
      as [(e & _ & Hr & _)
         | (llm & _ & [(_ & Hr & _)
                      | (s1 & H1 & [(_ & Hr & _)
                                   | (_ & s2 & H2 & Hr & _)])])];
      try discriminate Hr; injection Hr as ->.
    - apply after_classify_stage in H1. simpl in *. tauto.
    - apply after_reanalyze_stage in H2. simpl in *. tauto. }
  split; [exact Hin|].
  intros Heq. rewrite Heq in Hin. cbv in Hin.
  repeat destruct Hin as [Hin | Hin]; try discriminate Hin. exact Hin.
Qed.


(** ** Failures and what becomes of them *)

(** C1, amended: a configuration that [get_llm] refuses (no API key, or
    an unsupported provider) makes [classify_email] raise the [ValueError]
    of [get_llm]; with a configuration [get_llm] accepts, [classify_email]
    returns a dict with the six result keys, and both nodes return a state,
    whatever the model does, a JSON decoding error raised by the model call
    of the classification node left aside. *)
Theorem classify_email_returns_when_configured :
  (forall e email_id subject body sender w,
      get_llm settings = Raise e ->
      classify_email settings email_id subject body sender w
      = (Raise e, entered (lit "classify") w))
  /\ forall llm,
       get_llm settings = Ok llm ->
       (forall email_id subject body sender w,
           ainvoke llm (llm_calls w)
             (classify_messages (initial_state email_id subject body sender))
           <> LlmRaises JSONDecodeError ->
           exists r w',
             classify_email settings email_id subject body sender w
             = (Ok r, w')
             /\ map fst r = result_keys)
       /\ (forall state w,
              ainvoke llm (llm_calls w) (classify_messages state)
              <> LlmRaises JSONDecodeError ->
              exists state',
                classify_email_node settings state w = (Ok state', called w))
       /\ (forall state w,
              exists state',
                reanalyze_node settings state w = (Ok state', called w)).
Proof.
  split.
  { intros e email_id subject body sender w Hllm.
    rewrite classify_email_eq, graph_ainvoke_workflow, classify_email_node_eq.
    now rewrite Hllm. }
  intros llm Hllm.
  assert (forall state w,
             ainvoke llm (llm_calls w) (classify_messages state)
             <> LlmRaises JSONDecodeError ->
             exists state',
               classify_email_node settings state w = (Ok state', called w))
    as Hnode.
  { intros state w Hcall.
    destruct (classify_email_node_outcome llm state w Hllm) as [H | [H _]];
      [exact H | contradiction]. }
  split; [|split].
  - intros email_id subject body sender w Hcall.
    rewrite classify_email_eq, graph_ainvoke_workflow.
    destruct (Hnode (initial_state email_id subject body sender)
                (entered (lit "classify") w) Hcall) as (s1 & ->).
    destruct (str_eqb (should_reanalyze settings s1) (lit "reanalyze")).
    + destruct (reanalyze_node_post llm s1
                  (entered (lit "reanalyze")
                     (called (entered (lit "classify") w))) Hllm)
        as (s2 & -> & _).
      eexists. eexists. split; reflexivity.
    + eexists. eexists. split; reflexivity.
  - exact Hnode.
  - intros state w.
    destruct (reanalyze_node_post llm state w Hllm) as (s2 & H & _).
    now exists s2.
Qed.

(** C6: when the reanalysis fails (the model call raises, its answer is no
    text or does not decode, a field is missing, the category is invalid,
    or the confidence is no number), the node returns the state it was
    given with [retry_count] increased by 1 and [processing_stage] set to
    [reanalysis_failed]: category, confidence, reasoning, keywords and the
    input fields are as before. *)
Theorem reanalysis_failure_keeps_classification (llm : BaseChatModel)
    (state : EmailClassificationState) (w : World) :
  get_llm settings = Ok llm ->
  reanalysis_fails (ainvoke llm (llm_calls w) (reanalyze_messages state)) ->
  exists state',
    reanalyze_node settings state w = (Ok state', called w)
    /\ category state' = category state
    /\ confidence state' = confidence state
    /\ reasoning state' = reasoning state
    /\ keywords state' = keywords state
    /\ retry_count state' = (retry_count state + 1)%Z
    /\ processing_stage state' = lit "reanalysis_failed"
    /\ email_id state' = email_id state
    /\ subject state' = subject state
    /\ sender state' = sender state
    /\ body state' = body state.
Proof.
  intros Hllm Hfail. rewrite reanalyze_node_eq, Hllm.
  assert (forall e,
             exists state',
               (Ok (reanalyze_except state e), called w) = (Ok state', called w)
               /\ category state' = category state
               /\ confidence state' = confidence state
               /\ reasoning state' = reasoning state
               /\ keywords state' = keywords state
               /\ retry_count state' = (retry_count state + 1)%Z
               /\ processing_stage state' = lit "reanalysis_failed"
               /\ email_id state' = email_id state
               /\ subject state' = subject state
               /\ sender state' = sender state
               /\ body state' = body state) as Hframe.
  { intros e. exists (reanalyze_except state e). repeat split. }
  destruct (ainvoke llm (llm_calls w) _) as [response|e0]; [|apply Hframe].
  destruct (reanalyze_try state response) as [s1|e0] eqn:Htry;
    [|apply Hframe].
  exfalso.
  apply reanalyze_try_ok in Htry
    as (v & c & x & f & r & k & (text & Ht & Hv) & Hc & Hin & Hx & Hf & Hr
        & Hk & _).
  unfold valid_categories in Hin.
  inversion Hfail
    as [ e Heq
       | response' Hno Heq
       | response' text' e Ht' Hv' Heq
       | response' v' field e (text' & Ht' & Hv') Hfield Hget Heq
       | response' v' c' (text' & Ht' & Hv') Hc' Hin' Heq
       | response' v' x' e (text' & Ht' & Hv') Hx' Hf' Heq ]; subst response'.
  - exact (Hno text Ht).
  - congruence.
  - assert (v' = v) as -> by congruence.
    simpl in Hfield.
    destruct Hfield as [<- | [<- | [<- | [<- | []]]]]; congruence.
  - assert (v' = v) as -> by congruence. congruence.
  - assert (v' = v) as -> by congruence. congruence.
Qed.

(** C7, at the failing input: when the model call of the classification
    node raises a JSON decoding error, the first [except] clause reads the
    unbound local [response] and the node raises [UnboundLocalError]. *)
Theorem classify_model_decode_error_escapes (llm : BaseChatModel)
    (state : EmailClassificationState) (w : World) :
  get_llm settings = Ok llm ->
  ainvoke llm (llm_calls w) (classify_messages state)
  = LlmRaises JSONDecodeError ->
  classify_email_node settings state w
  = (Raise (UnboundLocalError (lit "response")), called w).
Proof.
  intros Hllm Hcall. rewrite classify_email_node_eq, Hllm, Hcall.
  reflexivity.
Qed.

(** What the helpers raise is never a JSON decoding error. *)
Lemma all_in_raises (fields : list str) (v : value) (e : exn) :
  all_in fields v = Raise e -> is_JSONDecodeError e = false.
Proof.
  induction fields as [|f fs IH]; cbn [all_in]; [discriminate|].
  destruct (py_contains v f) as [[|]|e0] eqn:Hc; cbn [bind_result].
  - exact IH.
  - discriminate.
  - intros H. injection H as <-.
    destruct v; simpl in Hc; try discriminate Hc;
      injection Hc as <-; reflexivity.
Qed.

Lemma py_getitem_raises (v : value) (key : str) (e : exn) :
  py_getitem v key = Raise e -> is_JSONDecodeError e = false.
Proof.
  destruct v; simpl; try (intros H; injection H as <-; reflexivity).
  destruct (dict_get items key); [discriminate|].
  intros H. injection H as <-. reflexivity.
Qed.

Lemma py_float_raises (x : value) (e : exn) :
  py_float x = Raise e -> is_JSONDecodeError e = false.
Proof.
  destruct x; simpl; try (intros H; injection H as <-; reflexivity).
  - discriminate.
  - destruct (float_of_Z z); try discriminate.
    intros H. injection H as <-. reflexivity.
  - discriminate.
  - destruct (float_of_str s); [discriminate|].
    intros H. injection H as <-. reflexivity.
Qed.

(** An exception out of the [try] body of the classification node is the
    one the decoder raised, or it is no JSON decoding error. *)
Lemma classify_try_raises (state : EmailClassificationState)
    (response : AIMessage) (e : exn) :
  classify_try state response = Raise e ->
  (exists text,
      content response = VStr text
      /\ json_loads (clean_json_response text) = Raise e)
  \/ is_JSONDecodeError e = false.
Proof.
  unfold classify_try, call_clean_json_response. intros H.
  destruct (content response) as [| | | |text| |] eqn:Et;
    cbn [bind_result] in H; try (injection H as <-; right; reflexivity).
  destruct (json_loads _) as [v|e0] eqn:Ev; cbn [bind_result] in H.
  2:{ injection H as <-. left. now exists text. }
  right.
  destruct (all_in required_fields v) as [[|]|e0] eqn:Hall;
    cbn [bind_result negb] in H.
  - destruct (py_getitem v (lit "category")) as [c|e0] eqn:Hc;
      cbn [bind_result] in H.
    2:{ injection H as <-. exact (py_getitem_raises _ _ _ Hc). }
    destruct (py_in_strs c valid_categories); cbn [negb] in H.
    2:{ injection H as <-. reflexivity. }
    destruct (py_getitem v (lit "confidence")) as [x|e0] eqn:Hx;
      cbn [bind_result] in H.
    2:{ injection H as <-. exact (py_getitem_raises _ _ _ Hx). }
    destruct (py_float x) as [f|e0] eqn:Hf; cbn [bind_result] in H.
    2:{ injection H as <-. exact (py_float_raises _ _ Hf). }
    destruct (py_getitem v (lit "reasoning")) as [r|e0] eqn:Hr;
      cbn [bind_result] in H.
    2:{ injection H as <-. exact (py_getitem_raises _ _ _ Hr). }
    destruct (py_getitem v (lit "keywords")) as [k|e0] eqn:Hk;
      cbn [bind_result] in H.
    2:{ injection H as <-. exact (py_getitem_raises _ _ _ Hk). }
    discriminate H.
  - injection H as <-. reflexivity.
  - injection H as <-. exact (all_in_raises _ _ _ Hall).
Qed.

Lemma py_contains_getitem (v c : value) (field : str) :
  py_getitem v field = Ok c -> py_contains v field = Ok true.
Proof.
  destruct v; simpl; try discriminate.
  now destruct (dict_get items field).
Qed.


(** The other failures give the defaults with stage [error]. *)
Lemma classification_other_failure (llm : BaseChatModel)
    (state : EmailClassificationState) (w : World) :
  get_llm settings = Ok llm ->
  classification_fails_otherwise
    (ainvoke llm (llm_calls w) (classify_messages state)) ->
  exists e,
    classify_email_node settings state w
    = (Ok (updated state (VStr (lit "neutral")) f0_3
             (VStr (lit "Error during classification: "
                    ++ firstn 100 (exn_str e)))
             (VList []) (retry_count state) (lit "error")), called w).
Proof.
  intros Hllm Hfail. rewrite classify_email_node_eq, Hllm.
  destruct (ainvoke llm (llm_calls w) _) as [response|e0].
  2:{ inversion Hfail as [e He Heq| | | | | | ]. subst e.
      exists e0. unfold classify_except. now rewrite He. }
  assert (exists e,
             classify_try state response = Raise e
             /\ is_JSONDecodeError e = false) as (e & Htry & He).
  { destruct (classify_try state response) as [s1|e] eqn:Htry.
    - exfalso.
      apply classify_try_ok in Htry
        as (v & c & x & f & r & k & (text & Ht & Hv) & Hc & Hin & Hx & Hf
            & Hr & Hk & _).
      unfold valid_categories in Hin.
      assert (forall v', decodes_to response v' -> v' = v) as Huniq.
      { intros v' (text' & Ht' & Hv'). congruence. }
      inversion Hfail
        as [
           | response' Hno Heq
           | response' text' e Ht' Hv' He Heq
           | response' v' field Hd Hfield Hmem Heq
           | response' v' Hd Hno Heq
           | response' v' c' Hd Hc' Hin' Heq
           | response' v' x' e Hd Hx' Hf' Heq ]; subst response'.
      + exact (Hno text Ht).
      + congruence.
      + apply Huniq in Hd. subst v'. simpl in Hfield.
        destruct Hfield as [<- | [<- | [<- | [<- | []]]]].
        * rewrite (py_contains_getitem _ _ _ Hc) in Hmem. discriminate Hmem.
        * rewrite (py_contains_getitem _ _ _ Hx) in Hmem. discriminate Hmem.
        * rewrite (py_contains_getitem _ _ _ Hr) in Hmem. discriminate Hmem.
        * rewrite (py_contains_getitem _ _ _ Hk) in Hmem. discriminate Hmem.
      + apply Huniq in Hd. subst v'. destruct v; try discriminate Hc.
        exact (Hno items eq_refl).
      + apply Huniq in Hd. subst v'. congruence.
      + apply Huniq in Hd. subst v'. congruence.
    - exists e. split; [reflexivity|].
      destruct (classify_try_raises _ _ _ Htry) as [(text & Ht & Hv) | He];
        [|exact He].
      inversion Hfail
        as [
           | response' Hno Heq
           | response' text' e' Ht' Hv' He' Heq
           | response' v' field (text' & Ht' & Hv') Hfield Hmem Heq
           | response' v' (text' & Ht' & Hv') Hno Heq
           | response' v' c' (text' & Ht' & Hv') Hc' Hin' Heq
           | response' v' x' e' (text' & Ht' & Hv') Hx' Hf' Heq ];
        subst response'; congruence. }
  rewrite Htry. exists e. unfold classify_except. now rewrite He.
Qed.

(** The reanalysis succeeds or fails: whatever the model call does, it is
    one of the failures above or the node accepts the payload. *)
Lemma reanalysis_fails_or_succeeds (llm : BaseChatModel)
    (state : EmailClassificationState) (w : World) :
  get_llm settings = Ok llm ->
  reanalysis_fails (ainvoke llm (llm_calls w) (reanalyze_messages state))
  \/ exists state',
       reanalyze_node settings state w = (Ok state', called w)
       /\ processing_stage state' = lit "reanalyzed".
Proof.
  intros Hllm. rewrite reanalyze_node_eq, Hllm.
  destruct (ainvoke llm (llm_calls w) _) as [response|e0];
    [|left; constructor].
  unfold reanalyze_try, call_clean_json_response.
  destruct (content response) as [| | | |text| |] eqn:Et;
    try (left; apply reanalysis_no_text; intros text; rewrite Et;
         discriminate).
  cbn [bind_result].
  destruct (json_loads _) as [v|e0] eqn:Ev; cbn [bind_result];
    [|left; eapply reanalysis_unparseable; eassumption].
  assert (decodes_to response v) as Hd by (now exists text).
  destruct (py_getitem v (lit "category")) as [c|e0] eqn:Hc;
    cbn [bind_result].
  2:{ left. eapply reanalysis_missing_field; [exact Hd | | exact Hc].
      simpl; auto. }
  destruct (py_in_strs c valid_categories) eqn:Hin; cbn [negb].
  2:{ left. eapply reanalysis_invalid_category; eassumption. }
  destruct (py_getitem v (lit "confidence")) as [x|e0] eqn:Hx;
    cbn [bind_result].
  2:{ left. eapply reanalysis_missing_field; [exact Hd | | exact Hx].
      simpl; auto. }
  destruct (py_float x) as [f|e0] eqn:Hf; cbn [bind_result].
  2:{ left. eapply reanalysis_confidence_no_number; eassumption. }
  destruct (py_getitem v (lit "reasoning")) as [r|e0] eqn:Hr;
    cbn [bind_result].
  2:{ left. eapply reanalysis_missing_field; [exact Hd | | exact Hr].
      simpl; auto. }
  destruct (py_getitem v (lit "keywords")) as [k|e0] eqn:Hk;
    cbn [bind_result].
  2:{ left. eapply reanalysis_missing_field; [exact Hd | | exact Hk].
      simpl; auto 6. }
  right. eexists. split; reflexivity.
Qed.

End WorkflowFacts.

(** ** The statements at sample inputs *)

(** C1, counterexample: with the default settings no API key is set;
    [get_llm], called before the [try] of the classification node, raises
    [ValueError], and [classify_email] raises it to its caller. *)
Lemma classify_email_raises_without_api_key :
  sample_run rt_spam default_settings
  = (Raise (ValueError
              (lit "API key for provider 'gemini' not found. Please set GEMINI_API_KEY in your .env file")),
     entered (lit "classify") initial_world).
Proof. vm_compute. reflexivity. Qed.

(** C1, witness: with a key set and a model that answers,
    [classify_email] returns. *)
Lemma classify_email_returns_when_configured_witness :
  exists r w',
    sample_run rt_spam keyed_settings = (Ok r, w')
    /\ map fst r = result_keys.
Proof.
  apply (proj1 (proj2 (@classify_email_returns_when_configured
                         rt_spam keyed_settings)
                  keyed_llm eq_refl)).
  vm_compute. discriminate.
Defined.

(** C2, counterexample: the model reports a confidence of 1.5; the
    classification succeeds and the caller receives 1.5, which is above
    1.0. *)
Lemma classify_email_confidence_above_one :
  fst (sample_run rt_overconfident keyed_settings)
  = Ok [ (lit "email_id", VStr (lit "test_001"));
         (lit "category", VStr (lit "spam"));
         (lit "confidence", VFloat f1_5);
         (lit "reasoning", VStr (lit "Obvious spam"));
         (lit "keywords", VList []);
         (lit "processing_stage", VStr (lit "classified")) ]
  /\ SFleb f1_5 f1_0 = false
  /\ in_unit_interval f1_5 = false.
Proof. repeat split; vm_compute; reflexivity. Qed.

(** C3, witness: the routing at the threshold. *)
Lemma should_reanalyze_routing_witness :
  should_reanalyze keyed_settings at_threshold_state = lit "end"
  /\ route (rt := rt_spam) keyed_settings at_threshold_state = Ok None.
Proof.
  apply (proj1 (proj2 (proj2 (proj2
           (@should_reanalyze_routing rt_spam keyed_settings
              at_threshold_state)))));
    reflexivity.
Defined.

(** C4, witness: a run through both nodes. *)
Lemma reanalysis_runs_at_most_once_witness :
  (rev (visited (snd (sample_graph_run rt_unsure_then_prose keyed_settings)))
   = [lit "classify"]
   \/ rev (visited (snd (sample_graph_run rt_unsure_then_prose keyed_settings)))
      = [lit "classify"; lit "reanalyze"])
  /\ runs_of (lit "reanalyze")
       (snd (sample_graph_run rt_unsure_then_prose keyed_settings)) <= 1
  /\ llm_calls (snd (sample_graph_run rt_unsure_then_prose keyed_settings)) <= 2.
Proof.
  destruct (proj1 (@reanalysis_runs_at_most_once rt_unsure_then_prose
                     keyed_settings)
              sample_email_id sample_subject sample_body sample_sender
              (fst (sample_graph_run rt_unsure_then_prose keyed_settings))
              (snd (sample_graph_run rt_unsure_then_prose keyed_settings))
              (surjective_pairing _))
    as (Hv & Hr & Hc & _).
  exact (conj Hv (conj Hr Hc)).
Defined.

(** C5, witness: the category the caller receives after prose from the
    model. *)
Lemma category_always_valid_witness :
  exists r w',
    sample_run rt_prose keyed_settings = (Ok r, w')
    /\ exists c, dict_get r (lit "category") = Some c /\ valid_category c.
Proof.
  eexists. eexists. split; [reflexivity|].
  eapply (proj1 (@category_always_valid rt_prose keyed_settings)
            sample_email_id sample_subject sample_body sample_sender
            initial_world).
  reflexivity.
Defined.

(** C6, witness: a failed reanalysis of the sample state. *)
Lemma reanalysis_failure_keeps_classification_witness :
  exists state',
    reanalyze_node (rt := rt_prose) keyed_settings unsure_state initial_world
    = (Ok state', called initial_world)
    /\ category state' = category unsure_state
    /\ confidence state' = confidence unsure_state
    /\ reasoning state' = reasoning unsure_state
    /\ keywords state' = keywords unsure_state
    /\ retry_count state' = (retry_count unsure_state + 1)%Z
    /\ processing_stage state' = lit "reanalysis_failed"
    /\ email_id state' = email_id unsure_state
    /\ subject state' = subject unsure_state
    /\ sender state' = sender unsure_state
    /\ body state' = body unsure_state.
Proof.
  apply (@reanalysis_failure_keeps_classification rt_prose keyed_settings
           keyed_llm unsure_state
           initial_world eq_refl).
  apply (reanalysis_unparseable (H := rt_prose) {| content := VStr prose_text |}
           prose_text JSONDecodeError); reflexivity.
Defined.

(** C7, witness: the model call raises a JSON decoding error. *)
Lemma classify_model_decode_error_escapes_witness :
  classify_email_node (rt := rt_decode_error) keyed_settings unsure_state
    initial_world
  = (Raise (UnboundLocalError (lit "response")), called initial_world).
Proof.
  apply (@classify_model_decode_error_escapes rt_decode_error keyed_settings
           keyed_llm unsure_state
           initial_world eq_refl eq_refl).
Defined.

(** C10, witness: the dict the caller receives after a low confidence and
    a failed reanalysis. *)
Lemma classify_email_result_shape_witness :
  exists r w',
    sample_run rt_unsure_then_prose keyed_settings = (Ok r, w')
    /\ map fst r = result_keys
    /\ exists stage,
         dict_get r (lit "processing_stage") = Some (VStr stage)
         /\ In stage [lit "classified"; lit "error_json_parse"; lit "error";
                      lit "reanalyzed"; lit "reanalysis_failed"]
         /\ stage <> lit "initialized".
Proof.
  eexists. eexists. split; [reflexivity|].
  eapply (@classify_email_result_shape rt_unsure_then_prose keyed_settings
            sample_email_id sample_subject sample_body sample_sender
            initial_world).
  reflexivity.
Defined.

(** ** The tests of the repository, on the model *)

(** [tests/unit/test_clean_json_response.py] *)

Example test_already_clean_json :
  clean_json_response (dq "{'category': 'spam', 'confidence': 0.9}")
  = dq "{'category': 'spam', 'confidence': 0.9}".
Proof. vm_compute. reflexivity. Qed.

Example test_strips_whitespace :
  clean_json_response (dq "   {'key': 'value'}   ") = dq "{'key': 'value'}".
Proof. vm_compute. reflexivity. Qed.

Example test_removes_markdown_fences :
  clean_json_response
    (lit "```json" ++ nl ++ dq "{'category': 'spam'}" ++ nl ++ lit "```")
  = dq "{'category': 'spam'}"
  /\ clean_json_response
       (lit "```" ++ nl ++ dq "{'category': 'neutral'}" ++ nl ++ lit "```")
     = dq "{'category': 'neutral'}"
  /\ clean_json_response
       (lit "  ```json" ++ nl ++ dq "{'a': 1}" ++ nl ++ lit "```  ")
     = dq "{'a': 1}".
Proof. repeat split; vm_compute; reflexivity. Qed.

Example test_empty_string : clean_json_response [] = [].
Proof. reflexivity. Qed.

Example test_only_fences :
  clean_json_response (lit "```json" ++ nl ++ lit "```") = [].
Proof. vm_compute. reflexivity. Qed.

Example test_nested_backticks_not_stripped :
  is_substring (lit "use `print()`")
    (clean_json_response
       (lit "```json" ++ nl ++ dq "{'code': 'use `print()`'}" ++ nl
        ++ lit "```"))
  = true.
Proof. vm_compute. reflexivity. Qed.

(** [tests/integration/test_classify_email_node.py] *)

Example test_successful_classification :
  classify_email_node (rt := rt_spam) keyed_settings sample_email_state
    initial_world
  = (Ok (updated sample_email_state (VStr (lit "spam")) f0_95
           (VStr (lit "Obvious spam")) (VList [VStr (lit "scam")]) 0
           (lit "classified")),
     called initial_world).
Proof. vm_compute. reflexivity. Qed.

Example test_json_parse_error_defaults_to_neutral :
  classify_email_node (rt := rt_prose) keyed_settings sample_email_state
    initial_world
  = (Ok (updated sample_email_state (VStr (lit "neutral")) f0_3
           (VStr (lit "Unable to parse LLM response")) (VList []) 0
           (lit "error_json_parse")),
     called initial_world).
Proof. vm_compute. reflexivity. Qed.

Example test_llm_exception_handled :
  classify_email_node (rt := rt_quota) keyed_settings sample_email_state
    initial_world
  = (Ok (updated sample_email_state (VStr (lit "neutral")) f0_3
           (VStr (lit "Error during classification: API quota exceeded"))
           (VList []) 0 (lit "error")),
     called initial_world).
Proof. vm_compute. reflexivity. Qed.

Example test_invalid_category_from_llm :
  classify_email_node (rt := rt_phishing) keyed_settings sample_email_state
    initial_world
  = (Ok (updated sample_email_state (VStr (lit "neutral")) f0_3
           (VStr (lit "Error during classification: Invalid category: phishing"))
           (VList []) 0 (lit "error")),
     called initial_world).
Proof. vm_compute. reflexivity. Qed.

Example test_missing_fields_from_llm :
  option_map processing_stage
    (match fst (classify_email_node (rt := rt_partial) keyed_settings
                  sample_email_state initial_world) with
     | Ok state' => Some state'
     | Raise _ => None
     end)
  = Some (lit "error").
Proof. vm_compute. reflexivity. Qed.

(** A low confidence and then prose: the reanalysis runs once and fails,
    and the first classification is what the caller receives. *)
Example low_confidence_then_failed_reanalysis :
  sample_run rt_unsure_then_prose keyed_settings
  = (Ok [ (lit "email_id", VStr sample_email_id);
          (lit "category", VStr (lit "neutral"));
          (lit "confidence", VFloat f0_3);
          (lit "reasoning", VStr (lit "Unclear"));
          (lit "keywords", VList []);
          (lit "processing_stage", VStr (lit "reanalysis_failed")) ],
     {| llm_calls := 2; visited := [lit "reanalyze"; lit "classify"] |}).
Proof. vm_compute. reflexivity. Qed.

(** ** More on the normalizer *)

Lemma lstrip_all_space (ws s : str) :
  all_space ws -> lstrip (ws ++ s) = lstrip s.
Proof.
  induction 1 as [|c ws Hc _ IH]; simpl; [reflexivity|].
  now rewrite Hc.
Qed.

Lemma all_space_rev (ws : str) : all_space ws -> all_space (rev ws).
Proof. unfold all_space. apply Forall_rev. Qed.

Lemma rstrip_all_space (s ws : str) :
  all_space ws -> rstrip (s ++ ws) = rstrip s.
Proof.
  intros Hws. unfold rstrip. rewrite rev_app_distr.
  now rewrite lstrip_all_space by now apply all_space_rev.
Qed.

Lemma strip_fixed (s : str) :
  trimmed_left s -> trimmed_right s -> strip s = s.
Proof.
  intros Hl Hr. unfold strip, rstrip.
  rewrite (lstrip_fixed _ Hl), (lstrip_fixed _ Hr).
  apply rev_involutive.
Qed.

Lemma strip_trimmed_right (s : str) : trimmed_right (strip s).
Proof.
  unfold trimmed_right, strip, rstrip. rewrite rev_involutive.
  apply lstrip_trimmed.
Qed.

Lemma strip_fixed_iff (s : str) :
  strip s = s <-> trimmed_left s /\ trimmed_right s.
Proof.
  split.
  - intros <-. split; [apply strip_trimmed_left | apply strip_trimmed_right].
  - intros [Hl Hr]. now apply strip_fixed.
Qed.

(** Padding with white space does not change what [strip] gives. *)
Lemma strip_padded (ws s ws' : str) :
  all_space ws -> all_space ws' -> strip (ws ++ s ++ ws') = strip s.
Proof.
  intros Hws Hws'. unfold strip.
  rewrite lstrip_all_space by exact Hws.
  destruct (lstrip_suffix s) as [l Hl].
  destruct (lstrip s) as [|c t] eqn:Hs.
  - (* [s] is white space only *)
    assert (all_space s) as Hall.
    { clear - Hs. induction s as [|a s IH]; [constructor|].
      simpl in Hs. destruct (py_isspace a) eqn:Ha; [|discriminate Hs].
      constructor; [exact Ha | exact (IH Hs)]. }
    rewrite lstrip_all_space by exact Hall.
    assert (lstrip ws' = []) as ->.
    { clear - Hws'. induction Hws' as [|a w Ha _ IH]; simpl;
        [reflexivity | now rewrite Ha]. }
    reflexivity.
  - assert (lstrip (s ++ ws') = (c :: t) ++ ws') as ->.
    { clear - Hs. induction s as [|a s IH]; [discriminate Hs|].
      simpl in *. destruct (py_isspace a); [exact (IH Hs)|].
      injection Hs as -> ->. reflexivity. }
    now apply rstrip_all_space.
Qed.

Lemma clean_json_response_of_trimmed (x : str) :
  clean_json_response (strip x) = clean_json_response x.
Proof.
  rewrite !clean_json_response_steps. now rewrite strip_idempotent.
Qed.

(** X1: the normalizer returns the trimmed input exactly when the trimmed
    input neither begins nor ends with a fence; in particular it returns
    the empty string for input that is empty or white space only. *)
Theorem clean_json_response_without_fences (x : str) :
  (clean_json_response x = strip x
   <-> startswith (strip x) fence = false
       /\ endswith (strip x) fence = false)
  /\ (all_space x -> clean_json_response x = []).
Proof.
  assert (clean_json_response x = strip x
          <-> startswith (strip x) fence = false
              /\ endswith (strip x) fence = false) as Hiff.
  { rewrite <- clean_json_response_of_trimmed. split.
    - intros Heq.
      destruct (startswith (strip x) fence) eqn:Hs;
        destruct (endswith (strip x) fence) eqn:He;
        try (split; reflexivity);
        exfalso;
        (assert (length (clean_json_response (strip x)) < length (strip x))
           as Hlt
           by (apply clean_json_response_shrinks;
               [apply strip_idempotent | auto]));
        rewrite Heq in Hlt; lia.
    - intros [Hs He].
      apply clean_json_response_fixed; [apply strip_idempotent | | ];
        assumption. }
  split; [exact Hiff|].
  intros Hall.
  assert (strip x = []) as Hx.
  { rewrite <- (app_nil_r x), <- (app_nil_l (x ++ [])).
    rewrite (strip_padded [] x []); [|constructor|constructor].
    unfold strip. rewrite <- (app_nil_r x).
    rewrite lstrip_all_space by exact Hall. reflexivity. }
  rewrite (proj2 Hiff); rewrite Hx; [reflexivity | split; reflexivity].
Qed.

(** X1, witness: white space only. *)
Lemma clean_json_response_without_fences_witness :
  clean_json_response (lit "   " ++ nl) = [].
Proof.
  apply (proj2 (clean_json_response_without_fences (lit "   " ++ nl))).
  repeat constructor.
Defined.

(** X2: what the normalizer returns neither begins nor ends with white
    space. *)
Theorem clean_json_response_is_trimmed (x : str) :
  trimmed_left (clean_json_response x)
  /\ trimmed_right (clean_json_response x).
Proof.
  rewrite clean_json_response_steps.
  split; [apply strip_trimmed_left | apply strip_trimmed_right].
Qed.

Lemma strip_of_fenced (ws0 opener middle ws3 : str) :
  all_space ws0 -> all_space ws3 ->
  trimmed_left opener -> opener <> [] ->
  strip (ws0 ++ (opener ++ middle ++ fence) ++ ws3)
  = opener ++ middle ++ fence.
Proof.
  intros H0 H3 Ho Hne. rewrite strip_padded by assumption.
  apply strip_fixed.
  - destruct opener; [contradiction | exact Ho].
  - unfold trimmed_right.
    rewrite !app_assoc, rev_app_distr. reflexivity.
Qed.

Lemma remove_closer_fence (s : str) : remove_closer (s ++ fence) = s.
Proof.
  unfold remove_closer.
  assert (endswith (s ++ fence) fence = true) as ->
    by (apply endswith_app; now exists s).
  apply (slice_to_neg_app s fence).
Qed.

(** X3: a block tagged [json] around trimmed text, with white space
    anywhere around the fences, is reduced to that text, whatever the text
    contains. *)
Theorem clean_json_response_unwraps_json (ws0 ws1 b ws2 ws3 : str) :
  all_space ws0 -> all_space ws1 -> all_space ws2 -> all_space ws3 ->
  strip b = b ->
  clean_json_response
    (ws0 ++ fence_json ++ ws1 ++ b ++ ws2 ++ fence ++ ws3)
  = b.
Proof.
  intros H0 H1 H2 H3 Hb. rewrite clean_json_response_steps.
  replace (ws0 ++ fence_json ++ ws1 ++ b ++ ws2 ++ fence ++ ws3)
    with (ws0 ++ (fence_json ++ (ws1 ++ b ++ ws2) ++ fence) ++ ws3)
    by (now rewrite <- !app_assoc).
  rewrite strip_of_fenced; [|assumption|assumption|reflexivity|discriminate].
  assert (remove_opener (fence_json ++ (ws1 ++ b ++ ws2) ++ fence)
          = (ws1 ++ b ++ ws2) ++ fence) as ->.
  { unfold remove_opener.
    assert (startswith (fence_json ++ (ws1 ++ b ++ ws2) ++ fence) fence_json
            = true) as -> by (apply startswith_app; eexists; reflexivity).
    apply (slice_from_app fence_json). }
  rewrite remove_closer_fence, strip_padded by assumption.
  exact Hb.
Qed.

(** X3, witness *)
Lemma clean_json_response_unwraps_json_witness :
  clean_json_response wrapped_object = bare_object.
Proof.
  apply (clean_json_response_unwraps_json (lit "  ") nl bare_object nl nl);
    try (repeat constructor).
Defined.

(** X4: the same for a block without tag, when white space (a line end,
    say) follows the opening fence. *)
Theorem clean_json_response_unwraps_bare (ws0 ws1 b ws2 ws3 : str) :
  all_space ws0 -> all_space ws1 -> all_space ws2 -> all_space ws3 ->
  ws1 <> [] ->
  strip b = b ->
  clean_json_response
    (ws0 ++ fence ++ ws1 ++ b ++ ws2 ++ fence ++ ws3)
  = b.
Proof.
  intros H0 H1 H2 H3 Hne Hb. rewrite clean_json_response_steps.
  replace (ws0 ++ fence ++ ws1 ++ b ++ ws2 ++ fence ++ ws3)
    with (ws0 ++ (fence ++ (ws1 ++ b ++ ws2) ++ fence) ++ ws3)
    by (now rewrite <- !app_assoc).
  rewrite strip_of_fenced; [|assumption|assumption|reflexivity|discriminate].
  assert (remove_opener (fence ++ (ws1 ++ b ++ ws2) ++ fence)
          = (ws1 ++ b ++ ws2) ++ fence) as ->.
  { unfold remove_opener.
    assert (startswith (fence ++ (ws1 ++ b ++ ws2) ++ fence) fence_json
            = false) as ->.
    { destruct ws1 as [|c ws1]; [contradiction|].
      inversion H1 as [|c' ws' Hc Hws]; subst.
      change (char_eqb c 106%N && startswith ((ws1 ++ b ++ ws2) ++ fence)
                                  (lit "son") = false).
      apply andb_false_iff. left. unfold char_eqb.
      apply N.eqb_neq. intros ->. discriminate Hc. }
    assert (startswith (fence ++ (ws1 ++ b ++ ws2) ++ fence) fence = true)
      as -> by (apply startswith_app; eexists; reflexivity).
    apply (slice_from_app fence). }
  rewrite remove_closer_fence, strip_padded by assumption.
  exact Hb.
Qed.

(** X4, witness *)
Lemma clean_json_response_unwraps_bare_witness :
  clean_json_response fenced_object = bare_object.
Proof.
  apply (clean_json_response_unwraps_bare (lit "  ") nl bare_object nl nl);
    try (repeat constructor); discriminate.
Defined.

(** ** More on the settings and the model factory *)

Section SettingsFacts.

Context `{rt : Runtime}.

Lemma provider_cases (p : str) :
  (p = lit "gemini" /\ str_eqb (lit "gemini") p = true)
  \/ (p = lit "openai" /\ str_eqb (lit "gemini") p = false
      /\ str_eqb (lit "openai") p = true)
  \/ (p = lit "anthropic" /\ str_eqb (lit "gemini") p = false
      /\ str_eqb (lit "openai") p = false
      /\ str_eqb (lit "anthropic") p = true)
  \/ (p <> lit "gemini" /\ p <> lit "openai" /\ p <> lit "anthropic"
      /\ str_eqb (lit "gemini") p = false
      /\ str_eqb (lit "openai") p = false
      /\ str_eqb (lit "anthropic") p = false).
Proof.
  destruct (str_eqb (lit "gemini") p) eqn:Hg.
  { apply str_eqb_eq in Hg. subst p. left. split; reflexivity. }
  destruct (str_eqb (lit "openai") p) eqn:Ho.
  { apply str_eqb_eq in Ho. subst p. right; left. repeat split. }
  destruct (str_eqb (lit "anthropic") p) eqn:Ha.
  { apply str_eqb_eq in Ha. subst p. right; right; left. repeat split. }
  right; right; right. repeat split; try reflexivity;
    intros ->; discriminate.
Qed.

(** X5: [get_api_key] returns a key exactly when the configured provider
    is one of the three and the key of that provider is set and not empty,
    and then it returns that key; the keys of the other providers play no
    part. In every other case it raises the [ValueError] that names the
    provider. *)
Theorem get_api_key_returns_configured_key (self : Settings) :
  (forall k,
      get_api_key self = Ok k
      <-> k <> []
          /\ ((llm_provider self = lit "gemini"
               /\ gemini_api_key self = Some k)
              \/ (llm_provider self = lit "openai"
                  /\ openai_api_key self = Some k)
              \/ (llm_provider self = lit "anthropic"
                  /\ anthropic_api_key self = Some k)))
  /\ (forall e,
         get_api_key self = Raise e ->
         e = ValueError
               (lit "API key for provider '" ++ llm_provider self
                ++ lit "' not found. Please set "
                ++ str_upper (llm_provider self)
                ++ lit "_API_KEY in your .env file")).
Proof.
  unfold get_api_key. cbn [dict_get].
  destruct (provider_cases (llm_provider self))
    as [(Hp & Hg) | [(Hp & Hg & Ho) | [(Hp & Hg & Ho & Ha)
                                      | (Hg' & Ho' & Ha' & Hg & Ho & Ha)]]];
    rewrite ?Hg, ?Ho, ?Ha.
  - split.
    + intros k. rewrite Hp.
      destruct (gemini_api_key self) as [[|c key]|]; split.
      * discriminate.
      * intros (Hne & [(_ & H) | [(H & _) | (H & _)]]);
          try discriminate H. injection H as <-. contradiction.
      * intros H. injection H as <-. split; [discriminate | now left].
      * intros (_ & [(_ & H) | [(H & _) | (H & _)]]);
          try discriminate H. now injection H as <-.
      * discriminate.
      * intros (_ & [(_ & H) | [(H & _) | (H & _)]]); discriminate H.
    + intros e.
      destruct (gemini_api_key self) as [[|c key]|]; intros H;
        try discriminate H; now injection H as <-.
  - split.
    + intros k. rewrite Hp.
      destruct (openai_api_key self) as [[|c key]|]; split.
      * discriminate.
      * intros (Hne & [(H & _) | [(_ & H) | (H & _)]]);
          try discriminate H. injection H as <-. contradiction.
      * intros H. injection H as <-.
        split; [discriminate | right; now left].
      * intros (_ & [(H & _) | [(_ & H) | (H & _)]]);
          try discriminate H. now injection H as <-.
      * discriminate.
      * intros (_ & [(H & _) | [(_ & H) | (H & _)]]); discriminate H.
    + intros e.
      destruct (openai_api_key self) as [[|c key]|]; intros H;
        try discriminate H; now injection H as <-.
  - split.
    + intros k. rewrite Hp.
      destruct (anthropic_api_key self) as [[|c key]|]; split.
      * discriminate.
      * intros (Hne & [(H & _) | [(H & _) | (_ & H)]]);
          try discriminate H. injection H as <-. contradiction.
      * intros H. injection H as <-.
        split; [discriminate | right; now right].
      * intros (_ & [(H & _) | [(H & _) | (_ & H)]]);
          try discriminate H. now injection H as <-.
      * discriminate.
      * intros (_ & [(H & _) | [(H & _) | (_ & H)]]); discriminate H.
    + intros e.
      destruct (anthropic_api_key self) as [[|c key]|]; intros H;
        try discriminate H; now injection H as <-.
  - split.
    + intros k. split; [discriminate|].
      intros (_ & [(H & _) | [(H & _) | (H & _)]]); contradiction.
    + intros e H. now injection H as <-.
Qed.

Lemma get_api_key_key_provider (self : Settings) (k : str) :
  get_api_key self = Ok k ->
  llm_provider self = lit "gemini"
  \/ llm_provider self = lit "openai"
  \/ llm_provider self = lit "anthropic".
Proof.
  unfold get_api_key. cbn [dict_get].
  destruct (provider_cases (llm_provider self))
    as [(Hp & _) | [(Hp & _) | [(Hp & _)
                                | (_ & _ & _ & Hg & Ho & Ha)]]];
    auto.
  rewrite Hg, Ho, Ha. discriminate.
Qed.

(** [get_llm] asks for the key first. *)
Lemma get_llm_no_key (settings : Settings) (e : exn) :
  get_api_key settings = Raise e -> get_llm settings = Raise e.
Proof. intros H. unfold get_llm. now rewrite H. Qed.

(** With the key, [get_llm] is the import and the constructor call of the
    provider's class. *)
Lemma get_llm_with_key (settings : Settings) (k : str) :
  get_api_key settings = Ok k ->
  exists module name llm,
    provider_class settings k module name llm
    /\ get_llm settings
       = (_ <- import_from module name ;; new_chat_model llm).
Proof.
  intros Hk. unfold get_llm. rewrite Hk. cbn [bind_result].
  destruct (get_api_key_key_provider settings k Hk) as [Hp | [Hp | Hp]].
  - exists (lit "langchain_google_genai"), (lit "ChatGoogleGenerativeAI").
    eexists. split; [exact (provider_gemini settings k Hp)|].
    now rewrite Hp.
  - exists (lit "langchain_openai"), (lit "ChatOpenAI").
    eexists. split; [exact (provider_openai settings k Hp)|].
    now rewrite Hp.
  - exists (lit "langchain_anthropic"), (lit "ChatAnthropic").
    eexists. split; [exact (provider_anthropic settings k Hp)|].
    now rewrite Hp.
Qed.

(** X6: what [get_llm] does. It raises the [ValueError] of
    [get_api_key] when that raises. Once the key is there, the provider is
    one of the three, so the error for an unsupported provider is never
    reached: [get_llm] imports the class of the provider and calls it on
    the key and the model name, token limit and temperature of the
    settings. It raises what the import raises, else what the constructor
    raises, and else returns the model. *)
Theorem get_llm_outcomes (settings : Settings) :
  (forall e,
      get_llm settings = Raise e <->
      get_api_key settings = Raise e
      \/ exists k module name llm,
           get_api_key settings = Ok k
           /\ provider_class settings k module name llm
           /\ (import_error module name = Some e
               \/ (import_error module name = None
                   /\ chat_model_error llm = Some e)))
  /\ (forall llm,
         get_llm settings = Ok llm <->
         exists k module name,
           get_api_key settings = Ok k
           /\ provider_class settings k module name llm
           /\ import_error module name = None
           /\ chat_model_error llm = None).
Proof.
  destruct (get_api_key settings) as [k|e0] eqn:Hk.
  2:{ rewrite (get_llm_no_key settings e0 Hk). split.
      - intros e. split.
        + intros H. injection H as <-. now left.
        + intros [H | (k & m & n & llm & H & _)];
            [injection H as <-; reflexivity | discriminate H].
      - intros llm. split; [discriminate|].
        intros (k & m & n & H & _). discriminate H. }
  destruct (get_llm_with_key settings k Hk)
    as (module & name & llm0 & Hclass & Hllm).
  assert (forall m n llm,
             provider_class settings k m n llm ->
             m = module /\ n = name /\ llm = llm0) as Huniq.
  { intros m n llm H1.
    destruct H1 as [H1|H1|H1]; destruct Hclass as [H2|H2|H2];
      try (rewrite H1 in H2; discriminate H2); repeat split. }
  rewrite Hllm. unfold import_from, new_chat_model. split.
  - intros e. split.
    + intros H. right. exists k, module, name, llm0.
      split; [reflexivity|]. split; [exact Hclass|].
      destruct (import_error module name) as [e1|]; cbn [bind_result] in H.
      * left. now injection H as ->.
      * right. split; [reflexivity|].
        destruct (chat_model_error llm0) as [e1|]; [|discriminate H].
        now injection H as ->.
    + intros [H | (k' & m & n & llm & Hk' & Hc & H)]; [discriminate H|].
      injection Hk' as <-.
      destruct (Huniq _ _ _ Hc) as (-> & -> & ->).
      destruct H as [-> | (-> & ->)]; reflexivity.
  - intros llm. split.
    + intros H. exists k, module, name.
      destruct (import_error module name) as [e1|]; cbn [bind_result] in H;
        [discriminate H|].
      destruct (chat_model_error llm0) as [e1|] eqn:Hc; [discriminate H|].
      injection H as <-. repeat split; auto.
    + intros (k' & m & n & Hk' & Hc & Hi & Hm).
      injection Hk' as <-.
      destruct (Huniq _ _ _ Hc) as (-> & -> & ->).
      now rewrite Hi, Hm.
Qed.

End SettingsFacts.

(** X5, witness *)
Lemma get_api_key_returns_configured_key_witness :
  get_api_key (H := rt_spam) keyed_settings = Ok (lit "test-key").
Proof.
  apply (proj2 (proj1 (@get_api_key_returns_configured_key rt_spam
                         keyed_settings) (lit "test-key"))).
  split; [discriminate|]. left. split; reflexivity.
Defined.

(** X6, witness: the key is set and the package of the provider is not
    installed. *)
Lemma get_llm_outcomes_witness :
  get_llm (rt := rt_no_package) keyed_settings
  = Raise (ImportError (lit "No module named 'langchain_google_genai'")).
Proof.
  apply (proj2 (proj1 (@get_llm_outcomes rt_no_package keyed_settings)
                  (ImportError
                     (lit "No module named 'langchain_google_genai'")))).
  right.
  exists (lit "test-key"), (lit "langchain_google_genai"),
    (lit "ChatGoogleGenerativeAI"), keyed_llm.
  split; [reflexivity|].
  split; [exact (provider_gemini keyed_settings (lit "test-key") eq_refl)|].
  left. reflexivity.
Defined.

(** ** More on the workflow *)

Section WorkflowMore.

Context `{rt : Runtime}.
Variable settings : Settings.

(** With [retry_count = 0] the routing asks for the reanalysis exactly when
    the confidence is below the threshold. *)
Lemma should_reanalyze_fresh (state : EmailClassificationState) :
  retry_count state = 0%Z ->
  str_eqb (should_reanalyze settings state) (lit "reanalyze")
  = SFltb (confidence state) (low_confidence_threshold settings).
Proof.
  intros Hr. unfold should_reanalyze. rewrite Hr. cbn [Z.leb Z.compare].
  destruct (SFltb _ _); reflexivity.
Qed.

(** X7: [classify_email] raises in two cases only: [get_llm] raises
    (the key is missing, or the import or the constructor of the
    provider's class fails), and then that exception is raised before any
    model call; or the first model call raises a JSON decoding error, and
    then [UnboundLocalError] is raised after that one call. The graph
    engine and the reanalysis node never raise. *)
Theorem classify_email_raises_only
    (email_id subject body sender : str) (w w' : World) (e : exn) :
  classify_email settings email_id subject body sender w = (Raise e, w') ->
  (get_llm settings = Raise e
   /\ w' = entered (lit "classify") w
   /\ llm_calls w' = llm_calls w)
  \/ (e = UnboundLocalError (lit "response")
      /\ w' = called (entered (lit "classify") w)
      /\ llm_calls w' = S (llm_calls w)
      /\ exists llm,
           get_llm settings = Ok llm
           /\ ainvoke llm (llm_calls w)
                (classify_messages
                   (initial_state email_id subject body sender))
              = LlmRaises JSONDecodeError).
Proof.
  rewrite classify_email_eq.
  destruct (graph_ainvoke _ _ w) as [[s1|e0] w1] eqn:Hrun;
    intros H; [discriminate H|].
  injection H as He Hw. subst e0 w1.
  apply workflow_outcome in Hrun
    as [(e1 & Hllm & Hr & Hw)
       | (llm & Hllm & [(Hcall & Hr & Hw)
                       | (s1 & _ & [(_ & Hr & _)
                                   | (_ & s2 & _ & Hr & _)])])];
    try discriminate Hr; injection Hr as Hr; subst.
  - left. split; [exact Hllm|]. split; reflexivity.
  - right. split; [reflexivity|]. split; [reflexivity|].
    split; [reflexivity|]. exists llm. split; assumption.
Qed.

(** X8: the workflow never touches the input fields: the state the graph
    ends in has the [email_id], [subject], [sender] and [body] it started
    with, and the dict [classify_email] returns carries the [email_id] it
    was called with. *)
Theorem classify_email_keeps_inputs :
  (forall state w final_state w',
      graph_ainvoke (create_classification_workflow settings) state w
      = (Ok final_state, w') ->
      email_id final_state = email_id state
      /\ subject final_state = subject state
      /\ sender final_state = sender state
      /\ body final_state = body state)
  /\ (forall email_id subject body sender w r w',
         classify_email settings email_id subject body sender w = (Ok r, w') ->
         dict_get r (lit "email_id") = Some (VStr email_id)).
Proof.
  assert (forall state w final_state w',
             graph_ainvoke (create_classification_workflow settings) state w
             = (Ok final_state, w') ->
             same_inputs state final_state) as Hsame.
  { intros state w final w' Hrun.
    apply workflow_outcome in Hrun
      as [(e & _ & Hr & _)
         | (llm & _ & [(_ & Hr & _)
                      | (s1 & (H1 & _) & [(_ & Hr & _)
                                         | (_ & s2 & (H2 & _) & Hr & _)])])];
      try discriminate Hr; injection Hr as ->; [exact H1|].
    destruct H1 as (A1 & B1 & C1 & D1). destruct H2 as (A2 & B2 & C2 & D2).
    unfold same_inputs. repeat split; congruence. }
  split.
  - intros state w final w' Hrun. exact (Hsame _ _ _ _ Hrun).
  - intros email_id subject body sender w r w' H.
    apply classify_email_ok in H as (final & Hrun & ->).
    apply Hsame in Hrun as (Hid & _).
    unfold result_of. cbn [dict_get]. cbn. now rewrite Hid.
Qed.

(** X9: the stage of the dict [classify_email] returns tells how the run
    went. With [classified], [error_json_parse] or [error] the model was
    called once, only [classify] ran, and the confidence returned is not
    below the threshold; with [reanalyzed] or [reanalysis_failed] the
    model was called twice and [reanalyze] ran after [classify]. So the
    caller never receives an unretried result whose confidence is below
    the threshold. *)
Theorem result_stage_tells_the_run
    (email_id subject body sender : str) (w w' : World)
    (r : list (str * value)) :
  classify_email settings email_id subject body sender w = (Ok r, w') ->
  exists stage f,
    dict_get r (lit "processing_stage") = Some (VStr stage)
    /\ dict_get r (lit "confidence") = Some (VFloat f)
    /\ ((In stage [lit "classified"; lit "error_json_parse"; lit "error"]
         /\ SFltb f (low_confidence_threshold settings) = false
         /\ llm_calls w' = S (llm_calls w)
         /\ visited w' = lit "classify" :: visited w)
        \/ (In stage [lit "reanalyzed"; lit "reanalysis_failed"]
            /\ llm_calls w' = S (S (llm_calls w))
            /\ visited w' = lit "reanalyze" :: lit "classify" :: visited w)).
Proof.
  intros H. apply classify_email_ok in H as (final & Hrun & ->).
  exists (processing_stage final), (confidence final).
  split; [reflexivity|]. split; [reflexivity|].
  apply workflow_outcome in Hrun
    as [(e & _ & Hr & _)
       | (llm & _ & [(_ & Hr & _)
                    | (s1 & H1 & [(Hroute & Hr & ->)
                                 | (_ & s2 & H2 & Hr & ->)])])];
    try discriminate Hr; injection Hr as ->.
  - left. split; [exact (after_classify_stage _ _ _ _ H1)|].
    split; [|split; reflexivity].
    destruct H1 as (_ & Hrc & _).
    rewrite should_reanalyze_fresh in Hroute; [exact Hroute|].
    now rewrite Hrc.
  - right. split; [exact (after_reanalyze_stage _ _ _ _ H2)|].
    split; reflexivity.
Qed.

(** X10: with a threshold above 0.3, as the default 0.50 is, a failed
    first classification is always followed by the reanalysis, so that
    the stages [error_json_parse] and [error] never reach the caller of
    [classify_email]. *)
Theorem failed_classification_is_retried :
  SFltb f0_3 (low_confidence_threshold default_settings) = true
  /\ (SFltb f0_3 (low_confidence_threshold settings) = true ->
      forall email_id subject body sender w r w',
        classify_email settings email_id subject body sender w = (Ok r, w') ->
        exists stage,
          dict_get r (lit "processing_stage") = Some (VStr stage)
          /\ In stage [lit "classified"; lit "reanalyzed";
                       lit "reanalysis_failed"]).
Proof.
  split; [reflexivity|].
  intros Hthr email_id subject body sender w r w' H.
  apply classify_email_ok in H as (final & Hrun & ->).
  exists (processing_stage final). split; [reflexivity|].
  apply workflow_outcome in Hrun
    as [(e & _ & Hr & _)
       | (llm & _ & [(_ & Hr & _)
                    | (s1 & H1 & [(Hroute & Hr & _)
                                 | (_ & s2 & H2 & Hr & _)])])];
    try discriminate Hr; injection Hr as ->.
  - destruct H1 as (_ & Hrc & Hcases).
    rewrite should_reanalyze_fresh in Hroute by (now rewrite Hrc).
    destruct Hcases as [(Hs & _) | [(_ & _ & Hc & _) | (_ & _ & Hc & _)]].
    + rewrite Hs. simpl. auto.
    + rewrite Hc in Hroute. congruence.
    + rewrite Hc in Hroute. congruence.
  - apply after_reanalyze_stage in H2. simpl in *. tauto.
Qed.

(** X11: a confidence that is not a number is never below the threshold,
    nor is any confidence below a threshold that is not a number: the
    routing stops. *)
Theorem nan_confidence_is_not_retried (state : EmailClassificationState) :
  confidence state = S754_nan
  \/ low_confidence_threshold settings = S754_nan ->
  should_reanalyze settings state <> lit "reanalyze"
  /\ route settings state = Ok None.
Proof.
  intros Hnan.
  assert (SFltb (confidence state) (low_confidence_threshold settings)
          = false) as Hlt.
  { destruct Hnan as [-> | ->]; [reflexivity|].
    now destruct (confidence state). }
  assert (str_eqb (should_reanalyze settings state) (lit "reanalyze")
          = false) as Hne.
  { unfold should_reanalyze. rewrite Hlt.
    now destruct (1 <=? retry_count state)%Z. }
  split.
  - intros Heq. rewrite Heq in Hne. discriminate Hne.
  - unfold route. now rewrite next_node_classify, Hne.
Qed.

End WorkflowMore.

(** ** The nodes, case by case *)

Section NodeCases.

Context `{rt : Runtime}.
Variable settings : Settings.

Lemma valid_category_in (c : value) :
  valid_category c ->
  py_in_strs c [lit "spam"; lit "important"; lit "neutral"] = true.
Proof. intros [-> | [-> | ->]]; reflexivity. Qed.

Lemma py_getitem_ok (v c : value) (key : str) :
  py_getitem v key = Ok c ->
  exists items, v = VDict items /\ dict_get items key = Some c.
Proof.
  destruct v; simpl; try discriminate.
  destruct (dict_get items key) as [c'|] eqn:Hget; [|discriminate].
  intros H. injection H as <-. now exists items.
Qed.


(** An accepted answer goes through the [try] body of either node. *)
Lemma classify_try_accepts (state : EmailClassificationState)
    (response : AIMessage) (c : value) (f : float) (r k : value) :
  accepts (LlmReturns response) c f r k ->
  classify_try state response
  = Ok (updated state c f r k (retry_count state) (lit "classified")).
Proof.
  intros (response' & text & items & x & Heq & Ht & Hv & Hc & Hval & Hx & Hf
          & Hr & Hk).
  injection Heq as <-.
  unfold classify_try, call_clean_json_response, required_fields,
    valid_categories.
  rewrite Ht. cbn [bind_result]. rewrite Hv.
  cbn [bind_result all_in py_contains py_getitem].
  rewrite Hc, Hx, Hr, Hk. cbn [bind_result negb].
  rewrite (valid_category_in _ Hval). cbn [negb]. now rewrite Hf.
Qed.

Lemma reanalyze_try_accepts (state : EmailClassificationState)
    (response : AIMessage) (c : value) (f : float) (r k : value) :
  accepts (LlmReturns response) c f r k ->
  reanalyze_try state response
  = Ok (updated state c f r k (retry_count state + 1) (lit "reanalyzed")).
Proof.
  intros (response' & text & items & x & Heq & Ht & Hv & Hc & Hval & Hx & Hf
          & Hr & Hk).
  injection Heq as <-.
  unfold reanalyze_try, call_clean_json_response, valid_categories.
  rewrite Ht. cbn [bind_result]. rewrite Hv.
  cbn [bind_result py_getitem].
  rewrite Hc, Hx, Hr, Hk. cbn [bind_result].
  rewrite (valid_category_in _ Hval). cbn [negb]. now rewrite Hf.
Qed.

(** What the [try] body of either node has accepted is an accepted
    answer. *)
Lemma accepts_intro (response : AIMessage) (v c x : value) (f : float)
    (r k : value) :
  decodes_to response v ->
  py_getitem v (lit "category") = Ok c ->
  py_in_strs c valid_categories = true ->
  py_getitem v (lit "confidence") = Ok x ->
  py_float x = Ok f ->
  py_getitem v (lit "reasoning") = Ok r ->
  py_getitem v (lit "keywords") = Ok k ->
  accepts (LlmReturns response) c f r k.
Proof.
  intros (text & Ht & Hv) Hc Hin Hx Hf Hr Hk.
  destruct (py_getitem_ok _ _ _ Hc) as (items & -> & Hc').
  cbn [py_getitem] in Hx, Hr, Hk.
  destruct (dict_get items (lit "confidence")) as [x'|] eqn:Hx';
    [|discriminate Hx].
  destruct (dict_get items (lit "reasoning")) as [r'|] eqn:Hr';
    [|discriminate Hr].
  destruct (dict_get items (lit "keywords")) as [k'|] eqn:Hk';
    [|discriminate Hk].
  injection Hx as ->. injection Hr as ->. injection Hk as ->.
  exists response, text, items, x.
  repeat split; auto. now apply py_in_strs_valid.
Qed.


(** A failed reanalysis returns the state with [retry_count] and
    [processing_stage] changed. *)
Lemma reanalyze_node_fails (llm : BaseChatModel)
    (state : EmailClassificationState) (w : World) :
  get_llm settings = Ok llm ->
  reanalysis_fails (ainvoke llm (llm_calls w) (reanalyze_messages state)) ->
  reanalyze_node settings state w
  = (Ok (updated state (category state) (confidence state) (reasoning state)
           (keywords state) (retry_count state + 1)
           (lit "reanalysis_failed")), called w).
Proof.
  intros Hllm Hfail. rewrite reanalyze_node_eq, Hllm.
  destruct (ainvoke llm (llm_calls w) _) as [response|e0]; [|reflexivity].
  destruct (reanalyze_try state response) as [s1|e0] eqn:Htry;
    [|reflexivity].
  exfalso.
  apply reanalyze_try_ok in Htry
    as (v & c & x & f & r & k & (text & Ht & Hv) & Hc & Hin & Hx & Hf & Hr
        & Hk & _).
  unfold valid_categories in Hin.
  inversion Hfail
    as [ e Heq
       | response' Hno Heq
       | response' text' e Ht' Hv' Heq
       | response' v' field e (text' & Ht' & Hv') Hfield Hget Heq
       | response' v' c' (text' & Ht' & Hv') Hc' Hin' Heq
       | response' v' x' e (text' & Ht' & Hv') Hx' Hf' Heq ]; subst response'.
  - exact (Hno text Ht).
  - congruence.
  - assert (v' = v) as -> by congruence.
    simpl in Hfield.
    destruct Hfield as [<- | [<- | [<- | [<- | []]]]]; congruence.
  - assert (v' = v) as -> by congruence. congruence.
  - assert (v' = v) as -> by congruence. congruence.
Qed.













(** X13: the reanalysis node, for every behaviour of the model call, once
    [get_llm] gave a model: the answer is accepted and replaces the first
    classification, with stage [reanalyzed]; or the call or the answer
    fails in one of the ways of [reanalysis_fails], and the state is kept
    with stage [reanalysis_failed]. Either way [retry_count] grows by one
    and the model was called once; the node never raises. *)
Theorem reanalyze_node_cases (llm : BaseChatModel)
    (state : EmailClassificationState) (w : World) :
  get_llm settings = Ok llm ->
  (exists c f r k,
      accepts (ainvoke llm (llm_calls w) (reanalyze_messages state)) c f r k
      /\ reanalyze_node settings state w
         = (Ok (updated state c f r k (retry_count state + 1)
                  (lit "reanalyzed")), called w))
  \/ (reanalysis_fails (ainvoke llm (llm_calls w) (reanalyze_messages state))
      /\ reanalyze_node settings state w
         = (Ok (updated state (category state) (confidence state)
                  (reasoning state) (keywords state) (retry_count state + 1)
                  (lit "reanalysis_failed")), called w)).
Proof.
  intros Hllm.
  destruct (reanalysis_fails_or_succeeds settings llm state w Hllm)
    as [Hfail | (s1 & Hs1 & Hstage)].
  - right. split; [exact Hfail|].
    exact (reanalyze_node_fails llm state w Hllm Hfail).
  - left. rewrite reanalyze_node_eq, Hllm in Hs1.
    destruct (ainvoke llm (llm_calls w) (reanalyze_messages state))
      as [response|e] eqn:Hcall.
    2:{ injection Hs1 as <-. discriminate Hstage. }
    destruct (reanalyze_try state response) as [s2|e] eqn:Htry.
    2:{ injection Hs1 as <-. discriminate Hstage. }
    apply reanalyze_try_ok in Htry as Hok.
    destruct Hok as (v & c & x & f & r & k & Hd & Hc & Hin & Hx & Hf & Hr
                     & Hk & ->).
    exists c, f, r, k. split.
    + exact (accepts_intro _ _ _ _ _ _ _ Hd Hc Hin Hx Hf Hr Hk).
    + now rewrite reanalyze_node_eq, Hllm, Hcall, Htry.
Qed.

(** X14: a confident first answer is what the caller gets. When the model
    is configured, its first answer is accepted and the confidence is not
    below the threshold, [classify_email] returns the fields of that
    answer with stage [classified], after one model call and a run of
    [classify] alone. *)
Theorem confident_answer_is_returned
    (email_id subject body sender : str) (w : World) (llm : BaseChatModel)
    (c : value) (f : float) (r k : value) :
  get_llm settings = Ok llm ->
  accepts (ainvoke llm (llm_calls w)
             (classify_messages (initial_state email_id subject body sender)))
    c f r k ->
  SFltb f (low_confidence_threshold settings) = false ->
  classify_email settings email_id subject body sender w
  = (Ok (result_dict email_id c f r k (lit "classified")),
     called (entered (lit "classify") w)).
Proof.
  intros Hllm Hacc Hconf.
  rewrite classify_email_eq, graph_ainvoke_workflow, classify_email_node_eq,
    Hllm.
  change (llm_calls (entered (lit "classify") w)) with (llm_calls w).
  destruct Hacc as (response & Hacc).
  destruct Hacc as (text & items & x & Hcall & Hrest).
  rewrite Hcall.
  rewrite (classify_try_accepts _ response c f r k).
  2:{ exists response, text, items, x. split; [reflexivity | exact Hrest]. }
  rewrite should_reanalyze_fresh by reflexivity.
  cbn [confidence updated]. rewrite Hconf. reflexivity.
Qed.

(** X15: an unsure first answer is reanalysed, and the second answer
    decides. When the first answer is accepted with a confidence below
    the threshold, the model is called a second time with the reanalysis
    prompt built from the first answer. If the second answer is accepted,
    the caller gets its fields with stage [reanalyzed], whatever its
    confidence; if the reanalysis fails, the caller gets the fields of the
    first answer with stage [reanalysis_failed]. *)
Theorem unsure_answer_is_reanalyzed
    (email_id subject body sender : str) (w : World) (llm : BaseChatModel)
    (c : value) (f : float) (r k : value) :
  get_llm settings = Ok llm ->
  accepts (ainvoke llm (llm_calls w)
             (classify_messages (initial_state email_id subject body sender)))
    c f r k ->
  SFltb f (low_confidence_threshold settings) = true ->
  let first :=
    updated (initial_state email_id subject body sender) c f r k 0
      (lit "classified") in
  let second := ainvoke llm (S (llm_calls w)) (reanalyze_messages first) in
  let w2 :=
    called (entered (lit "reanalyze") (called (entered (lit "classify") w))) in
  (forall c' f' r' k',
      accepts second c' f' r' k' ->
      classify_email settings email_id subject body sender w
      = (Ok (result_dict email_id c' f' r' k' (lit "reanalyzed")), w2))
  /\ (reanalysis_fails second ->
      classify_email settings email_id subject body sender w
      = (Ok (result_dict email_id c f r k (lit "reanalysis_failed")), w2)).
Proof.
  intros Hllm Hacc Hconf first second w2.
  assert (classify_email settings email_id subject body sender w
          = match reanalyze_node settings first
                    (entered (lit "reanalyze")
                       (called (entered (lit "classify") w))) with
            | (Ok final_state, w') => (Ok (result_of final_state), w')
            | (Raise e, w') => (Raise e, w')
            end) as Hrun.
  { rewrite classify_email_eq, graph_ainvoke_workflow,
      classify_email_node_eq, Hllm.
    change (llm_calls (entered (lit "classify") w)) with (llm_calls w).
    destruct Hacc as (response & text & items & x & Hcall & Hrest).
    rewrite Hcall.
    rewrite (classify_try_accepts _ response c f r k).
    2:{ exists response, text, items, x. split; [reflexivity | exact Hrest]. }
    rewrite should_reanalyze_fresh by reflexivity.
    cbn [confidence updated]. rewrite Hconf. reflexivity. }
  split.
  - intros c' f' r' k' Hacc'. rewrite Hrun, reanalyze_node_eq, Hllm.
    destruct Hacc' as (response & text & items & x & Hcall & Hrest).
    change (ainvoke llm (S (llm_calls w)) (reanalyze_messages first)
            = LlmReturns response) in Hcall.
    change (llm_calls (entered (lit "reanalyze")
                         (called (entered (lit "classify") w))))
      with (S (llm_calls w)).
    rewrite Hcall.
    rewrite (reanalyze_try_accepts _ response c' f' r' k').
    2:{ exists response, text, items, x. split; [reflexivity | exact Hrest]. }
    reflexivity.
  - intros Hfail. rewrite Hrun.
    rewrite (reanalyze_node_fails llm first
               (entered (lit "reanalyze")
                  (called (entered (lit "classify") w))) Hllm Hfail).
    reflexivity.
Qed.

(** No raised call is an accepted answer. *)
Lemma accepts_returns (e : exn) (c : value) (f : float) (r k : value) :
  ~ accepts (LlmRaises e) c f r k.
Proof. intros (response & text & items & x & H & _). discriminate H. Qed.

(** C2, amended: the confidence the classification node leaves is [float]
    of the confidence in the answer of the call it made, when it accepted
    that answer, and 0.3 in every other case; the confidence the
    reanalysis node leaves is [float] of the confidence in the answer of
    the call it made, when it accepted that answer, and the one it found
    in every other case; nothing clamps it. So it is in [0.0, 1.0] after
    every step, and in the dict returned to the caller, whenever the
    confidence of every answer accepted from the configured model is. *)
Theorem confidence_in_range_when_reported_in_range :
  (forall state state' w w',
      classify_email_node settings state w = (Ok state', w') ->
      exists llm,
        get_llm settings = Ok llm
        /\ ((exists c f r k,
                accepts (ainvoke llm (llm_calls w) (classify_messages state))
                  c f r k
                /\ confidence state' = f)
            \/ ((forall c f r k,
                    ~ accepts
                        (ainvoke llm (llm_calls w) (classify_messages state))
                        c f r k)
                /\ confidence state' = f0_3)))
  /\ (forall state state' w w',
         reanalyze_node settings state w = (Ok state', w') ->
         exists llm,
           get_llm settings = Ok llm
           /\ ((exists c f r k,
                   accepts
                     (ainvoke llm (llm_calls w) (reanalyze_messages state))
                     c f r k
                   /\ confidence state' = f)
               \/ ((forall c f r k,
                       ~ accepts
                           (ainvoke llm (llm_calls w)
                              (reanalyze_messages state))
                           c f r k)
                   /\ confidence state' = confidence state)))
  /\ ((forall llm n messages c f r k,
          get_llm settings = Ok llm ->
          accepts (ainvoke llm n messages) c f r k ->
          in_unit_interval f = true) ->
      (forall state state' w w',
          classify_email_node settings state w = (Ok state', w') ->
          in_unit_interval (confidence state') = true)
      /\ (forall state state' w w',
             in_unit_interval (confidence state) = true ->
             reanalyze_node settings state w = (Ok state', w') ->
             in_unit_interval (confidence state') = true)
      /\ (forall email_id subject body sender w r w',
             classify_email settings email_id subject body sender w
             = (Ok r, w') ->
             exists f,
               dict_get r (lit "confidence") = Some (VFloat f)
               /\ in_unit_interval f = true)).
Proof.
  assert (forall state state' w w',
             classify_email_node settings state w = (Ok state', w') ->
             exists llm,
               get_llm settings = Ok llm
               /\ ((exists c f r k,
                       accepts
                         (ainvoke llm (llm_calls w) (classify_messages state))
                         c f r k
                       /\ confidence state' = f)
                   \/ ((forall c f r k,
                           ~ accepts
                               (ainvoke llm (llm_calls w)
                                  (classify_messages state))
                               c f r k)
                       /\ confidence state' = f0_3))) as Hclassify.
  { intros state state' w w'. rewrite classify_email_node_eq.
    destruct (get_llm settings) as [llm|e0]; [|discriminate].
    intros H. injection H as H _. exists llm. split; [reflexivity|].
    destruct (ainvoke llm (llm_calls w) (classify_messages state))
      as [response|e].
    - destruct (classify_try state response) as [s1|e] eqn:Htry.
      + left. injection H as <-.
        apply classify_try_ok in Htry
          as (v & c & x & f & r & k & Hd & Hc & Hin & Hx & Hf & Hr & Hk & ->).
        exists c, f, r, k. split; [|reflexivity].
        exact (accepts_intro _ _ _ _ _ _ _ Hd Hc Hin Hx Hf Hr Hk).
      + right. split.
        * intros c f r k Hacc.
          rewrite (classify_try_accepts state response c f r k Hacc) in Htry.
          discriminate Htry.
        * destruct (classify_except_bound state response e)
            as (s1 & Hs1 & _ & _ & _ & Hconf & _).
          rewrite Hs1 in H. now injection H as <-.
    - right. split; [intros c f r k; apply accepts_returns|].
      destruct (classify_except_unbound state e) as [(_ & He) | (_ & He)];
        rewrite He in H; [discriminate H|].
      now injection H as <-. }
  assert (forall state state' w w',
             reanalyze_node settings state w = (Ok state', w') ->
             exists llm,
               get_llm settings = Ok llm
               /\ ((exists c f r k,
                       accepts
                         (ainvoke llm (llm_calls w)
                            (reanalyze_messages state))
                         c f r k
                       /\ confidence state' = f)
                   \/ ((forall c f r k,
                           ~ accepts
                               (ainvoke llm (llm_calls w)
                                  (reanalyze_messages state))
                               c f r k)
                       /\ confidence state' = confidence state)))
    as Hreanalyze.
  { intros state state' w w'. rewrite reanalyze_node_eq.
    destruct (get_llm settings) as [llm|e0]; [|discriminate].
    intros H. injection H as H _. exists llm. split; [reflexivity|].
    destruct (ainvoke llm (llm_calls w) (reanalyze_messages state))
      as [response|e].
    - destruct (reanalyze_try state response) as [s1|e] eqn:Htry.
      + left. subst s1.
        apply reanalyze_try_ok in Htry
          as (v & c & x & f & r & k & Hd & Hc & Hin & Hx & Hf & Hr & Hk & ->).
        exists c, f, r, k. split; [|reflexivity].
        exact (accepts_intro _ _ _ _ _ _ _ Hd Hc Hin Hx Hf Hr Hk).
      + right. split; [|now subst state'].
        intros c f r k Hacc.
        rewrite (reanalyze_try_accepts state response c f r k Hacc) in Htry.
        discriminate Htry.
    - right. split; [intros c f r k; apply accepts_returns|].
      now subst state'. }
  split; [exact Hclassify|]. split; [exact Hreanalyze|].
  intros Hmodel.
  assert (forall state state' w w',
             classify_email_node settings state w = (Ok state', w') ->
             in_unit_interval (confidence state') = true) as Hc.
  { intros state state' w w' H.
    destruct (Hclassify _ _ _ _ H)
      as (llm & Hllm & [(c & f & r & k & Hacc & ->) | (_ & ->)]);
      [|reflexivity].
    exact (Hmodel _ _ _ _ _ _ _ Hllm Hacc). }
  assert (forall state state' w w',
             in_unit_interval (confidence state) = true ->
             reanalyze_node settings state w = (Ok state', w') ->
             in_unit_interval (confidence state') = true) as Hr.
  { intros state state' w w' Hs H.
    destruct (Hreanalyze _ _ _ _ H)
      as (llm & Hllm & [(c & f & r & k & Hacc & ->) | (_ & ->)]);
      [|exact Hs].
    exact (Hmodel _ _ _ _ _ _ _ Hllm Hacc). }
  split; [exact Hc|]. split; [exact Hr|].
  intros email_id subject body sender w r w'.
  rewrite classify_email_eq, graph_ainvoke_workflow.
  destruct (classify_email_node settings _ _) as [[s1|e] w1] eqn:H1;
    [|discriminate].
  pose proof (Hc _ _ _ _ H1) as Hs1.
  destruct (str_eqb (should_reanalyze settings s1) (lit "reanalyze")).
  - destruct (reanalyze_node settings s1 _) as [[s2|e] w2] eqn:H2;
      [|discriminate].
    intros H. injection H as <- _.
    exists (confidence s2). split; [reflexivity|].
    exact (Hr _ _ _ _ Hs1 H2).
  - intros H. injection H as <- _.
    exists (confidence s1). split; [reflexivity|]. exact Hs1.
Qed.

End NodeCases.

(** ** The service endpoint *)

Section EndpointFacts.

Context `{rt : Runtime}.
Variable settings : Settings.
Variable ClassifyResponse_init : list (str * value) -> result ClassifyResponse.

Lemma classify_email_without_model (e : exn)
    (email_id subject body sender : str) (w : World) :
  get_llm settings = Raise e ->
  classify_email settings email_id subject body sender w
  = (Raise e, entered (lit "classify") w).
Proof.
  intros H.
  now rewrite classify_email_eq, graph_ainvoke_workflow,
    classify_email_node_eq, H.
Qed.

Lemma classify_email_raise_cases (email_id subject body sender : str)
    (w w' : World) (e : exn) :
  classify_email settings email_id subject body sender w = (Raise e, w') ->
  get_llm settings = Raise e \/ e = UnboundLocalError (lit "response").
Proof.
  rewrite classify_email_eq.
  destruct (graph_ainvoke _ _ w) as [[s1|e0] w1] eqn:Hrun;
    intros H; [discriminate H|].
  injection H as He Hw. subst e0 w1.
  apply workflow_outcome in Hrun
    as [(e1 & Hllm & Hr & Hw)
       | (llm & Hllm & [(Hcall & Hr & Hw)
                       | (s1 & _ & [(_ & Hr & _)
                                   | (_ & s2 & _ & Hr & _)])])];
    try discriminate Hr; injection Hr as Hr; subst.
  - left. exact Hllm.
  - now right.
Qed.

(** The endpoint, with the monad unfolded. *)
Lemma classify_endpoint_eq (request : ClassifyRequest) (w : World) :
  classify_endpoint settings ClassifyResponse_init request w =
  match classify_email settings (request_email_id request)
          (request_subject request) (request_body request)
          (request_sender request) w with
  | (Ok r, w') =>
      (match ClassifyResponse_init r with
       | Ok response => Responds response
       | Raise e => RaisesHTTPException 500 (exn_str e)
       end, w')
  | (Raise e, w') => (RaisesHTTPException 500 (exn_str e), w')
  end.
Proof.
  unfold classify_endpoint, bindM, lift.
  destruct (classify_email _ _ _ _ _ w) as [[r|e] w1]; [|reflexivity].
  destruct (ClassifyResponse_init r); reflexivity.
Qed.

(** X16: the endpoint of the classifier service. Without an API key for
    the provider every request is answered by an [HTTPException] with
    status 500 whose detail is the text of the [ValueError] of
    [get_api_key], before any model call. In general the endpoint
    responds only with what the validation made of the dict
    [classify_email] returned; and whatever it raises has status 500 and
    as detail the text of the exception [get_llm] raised, of the
    [UnboundLocalError] of the classification node, or of the
    validation. *)
Theorem classify_endpoint_answers (request : ClassifyRequest) (w : World) :
  (forall e,
      get_api_key settings = Raise e ->
      classify_endpoint settings ClassifyResponse_init request w
      = (RaisesHTTPException 500 (exn_str e), entered (lit "classify") w))
  /\ (forall out w',
         classify_endpoint settings ClassifyResponse_init request w
         = (out, w') ->
         match out with
         | Responds response =>
             exists r,
               classify_email settings (request_email_id request)
                 (request_subject request) (request_body request)
                 (request_sender request) w = (Ok r, w')
               /\ ClassifyResponse_init r = Ok response
         | RaisesHTTPException status_code detail =>
             status_code = 500%Z
             /\ exists e,
                  detail = exn_str e
                  /\ (get_llm settings = Raise e
                      \/ e = UnboundLocalError (lit "response")
                      \/ exists r,
                           classify_email settings (request_email_id request)
                             (request_subject request) (request_body request)
                             (request_sender request) w = (Ok r, w')
                           /\ ClassifyResponse_init r = Raise e)
         end).
Proof.
  split.
  - intros e He. rewrite classify_endpoint_eq.
    now rewrite (classify_email_without_model e _ _ _ _ w
                   (get_llm_no_key settings e He)).
  - intros out w'. rewrite classify_endpoint_eq.
    destruct (classify_email _ _ _ _ _ w) as [[r|e] w1] eqn:Hrun.
    + destruct (ClassifyResponse_init r) as [response|e] eqn:Hinit;
        intros H; injection H as <- <-.
      * exists r. now split.
      * split; [reflexivity|]. exists e. split; [reflexivity|].
        right; right. exists r. now split.
    + intros H. injection H as <- <-.
      split; [reflexivity|]. exists e. split; [reflexivity|].
      destruct (classify_email_raise_cases _ _ _ _ _ _ _ Hrun) as [He | He];
        auto.
Qed.

End EndpointFacts.

(** ** The body in the prompts *)

Section BodyLimit.

Context `{rt : Runtime}.
Variable settings : Settings.

Lemma classify_user_prompt_long_body (id subj text tail from : str) :
  1000 <= length text ->
  classify_messages (initial_state id subj (text ++ tail) from)
  = classify_messages (initial_state id subj text from).
Proof.
  intros Hlen. unfold classify_messages, classify_user_prompt.
  cbn [body subject sender initial_state].
  rewrite firstn_app.
  replace (1000 - length text) with 0 by lia.
  cbn [firstn]. now rewrite app_nil_r.
Qed.

(** The [try] body and the [except] clauses of the classification node
    use the state only to copy it. *)
Lemma classify_try_frame (s s' : EmailClassificationState)
    (response : AIMessage) :
  retry_count s' = retry_count s ->
  classify_try s' response =
  match classify_try s response with
  | Ok s1 => Ok (updated s' (category s1) (confidence s1) (reasoning s1)
                   (keywords s1) (retry_count s1) (processing_stage s1))
  | Raise e => Raise e
  end.
Proof.
  intros Hrc. unfold classify_try.
  destruct (call_clean_json_response (content response)) as [text|];
    cbn [bind_result]; [|reflexivity].
  destruct (json_loads text) as [v|]; cbn [bind_result]; [|reflexivity].
  destruct (all_in required_fields v) as [[|]|]; cbn [bind_result negb];
    try reflexivity.
  destruct (py_getitem v (lit "category")) as [c|]; cbn [bind_result];
    [|reflexivity].
  destruct (py_in_strs c valid_categories); cbn [negb]; [|reflexivity].
  destruct (py_getitem v (lit "confidence")) as [x|]; cbn [bind_result];
    [|reflexivity].
  destruct (py_float x) as [f|]; cbn [bind_result]; [|reflexivity].
  destruct (py_getitem v (lit "reasoning")) as [r|]; cbn [bind_result];
    [|reflexivity].
  destruct (py_getitem v (lit "keywords")) as [k|]; cbn [bind_result];
    [|reflexivity].
  now rewrite Hrc.
Qed.

Lemma classify_except_frame (s s' : EmailClassificationState)
    (response : option AIMessage) (e : exn) :
  retry_count s' = retry_count s ->
  classify_except s' response e =
  match classify_except s response e with
  | Ok s1 => Ok (updated s' (category s1) (confidence s1) (reasoning s1)
                   (keywords s1) (retry_count s1) (processing_stage s1))
  | Raise e => Raise e
  end.
Proof.
  intros Hrc. unfold classify_except.
  destruct (is_JSONDecodeError e); [destruct response|];
    cbn [category confidence reasoning keywords retry_count
         processing_stage updated]; now rewrite ?Hrc.
Qed.

(** X17: the classification reads the first 1000 characters of the body
    only. Whenever [classify_email] returns after a single model call,
    that is without reanalysis, it returns the same dict, after the same
    run, for every longer body with the same first 1000 characters. (The
    reanalysis prompt carries the whole body.) *)
Theorem classification_reads_body_prefix
    (id subj text tail from : str) (w w' : World)
    (r : list (str * value)) :
  1000 <= length text ->
  classify_email settings id subj text from w = (Ok r, w') ->
  llm_calls w' = S (llm_calls w) ->
  classify_email settings id subj (text ++ tail) from w
  = (Ok r, w').
Proof.
  intros Hlen Hrun Hcalls.
  rewrite classify_email_eq, graph_ainvoke_workflow, classify_email_node_eq
    in Hrun |- *.
  rewrite (classify_user_prompt_long_body _ _ _ tail _ Hlen).
  destruct (get_llm settings) as [llm|e0] eqn:Hllm; [|discriminate Hrun].
  set (s := initial_state id subj text from) in *.
  set (s' := initial_state id subj (text ++ tail) from).
  assert (retry_count s' = retry_count s) as Hrc by reflexivity.
  assert (get_email_id s' = get_email_id s) as Hid' by reflexivity.
  set (wc := entered (lit "classify") w) in *.
  assert (forall first,
             (let (r0, w1) :=
                (let (r1, w2) := (first, called wc) in
                 match r1 with
                 | Ok state1 =>
                     if str_eqb (should_reanalyze settings state1)
                          (lit "reanalyze")
                     then reanalyze_node settings state1
                            (entered (lit "reanalyze") w2)
                     else (Ok state1, w2)
                 | Raise e => (Raise e, w2)
                 end) in
              match r0 with
              | Ok final_state => (Ok (result_of final_state), w1)
              | Raise e => (Raise e, w1)
              end) = (Ok r, w') ->
             exists s1,
               first = Ok s1
               /\ str_eqb (should_reanalyze settings s1) (lit "reanalyze")
                  = false
               /\ r = result_of s1 /\ w' = called wc) as Hsingle.
  { intros [s1|e] H; [|discriminate H].
    exists s1. split; [reflexivity|].
    destruct (str_eqb (should_reanalyze settings s1) (lit "reanalyze")).
    - exfalso.
      destruct (reanalyze_node_post settings llm s1
                  (entered (lit "reanalyze") (called wc)) Hllm)
        as (s2 & Hs2 & _).
      rewrite Hs2 in H. injection H as _ <-.
      cbn in Hcalls. lia.
    - injection H as <- <-. repeat split. }
  apply Hsingle in Hrun as (s1 & Hfirst & Hroute & -> & ->).
  assert (exists s1',
             match
               ainvoke llm (llm_calls wc) (classify_messages s)
             with
             | LlmReturns response =>
                 match classify_try s' response with
                 | Ok state' => Ok state'
                 | Raise e => classify_except s' (Some response) e
                 end
             | LlmRaises e => classify_except s' None e
             end = Ok s1'
             /\ category s1' = category s1
             /\ confidence s1' = confidence s1
             /\ reasoning s1' = reasoning s1
             /\ keywords s1' = keywords s1
             /\ retry_count s1' = retry_count s1
             /\ processing_stage s1' = processing_stage s1
             /\ get_email_id s1' = get_email_id s1)
    as (s1' & -> & Hc & Hf & Hr & Hk & Hn & Hst & Hi).
  { assert (get_email_id s1 = get_email_id s) as Hs1id.
    { destruct (classify_email_node_post settings llm s s1 wc (called wc) Hllm)
        as (_ & (Hin & _) & _); [|exact Hin].
      now rewrite classify_email_node_eq, Hllm, Hfirst. }
    destruct (ainvoke llm (llm_calls wc) (classify_messages s))
      as [response|e].
    - rewrite (classify_try_frame s s' response Hrc).
      destruct (classify_try s response) as [s0|e].
      + injection Hfirst as ->. eexists. split; [reflexivity|].
        repeat split. unfold get_email_id in *.
        cbn [email_id updated]. congruence.
      + rewrite (classify_except_frame s s' _ e Hrc), Hfirst.
        eexists. split; [reflexivity|].
        repeat split. unfold get_email_id in *.
        cbn [email_id updated]. congruence.
    - rewrite (classify_except_frame s s' _ e Hrc), Hfirst.
      eexists. split; [reflexivity|].
      repeat split. unfold get_email_id in *.
      cbn [email_id updated]. congruence. }
  assert (should_reanalyze settings s1' = should_reanalyze settings s1)
    as Hsame by (unfold should_reanalyze; now rewrite Hf, Hn).
  cbv zeta iota beta. rewrite Hsame, Hroute.
  unfold result_of. unfold get_email_id in Hi.
  now rewrite Hc, Hf, Hr, Hk, Hst, Hi.
Qed.

End BodyLimit.

(** ** The further statements at sample inputs *)

(** X7, at the run whose model call raises a JSON decoding error. *)
Lemma classify_email_raises_only_witness :
  (get_llm (rt := rt_decode_error) keyed_settings
   = Raise (UnboundLocalError (lit "response"))
   /\ called (entered (lit "classify") initial_world)
      = entered (lit "classify") initial_world
   /\ llm_calls (called (entered (lit "classify") initial_world))
      = llm_calls initial_world)
  \/ (UnboundLocalError (lit "response") = UnboundLocalError (lit "response")
      /\ called (entered (lit "classify") initial_world)
         = called (entered (lit "classify") initial_world)
      /\ llm_calls (called (entered (lit "classify") initial_world))
         = S (llm_calls initial_world)
      /\ exists llm,
           get_llm (rt := rt_decode_error) keyed_settings = Ok llm
           /\ ainvoke (Runtime := rt_decode_error) llm
                (llm_calls initial_world)
                (classify_messages
                   (initial_state sample_email_id sample_subject sample_body
                      sample_sender))
              = LlmRaises JSONDecodeError).
Proof.
  apply (@classify_email_raises_only rt_decode_error keyed_settings
           sample_email_id sample_subject sample_body sample_sender
           initial_world).
  reflexivity.
Defined.

(** X8, at the sample run. *)
Lemma classify_email_keeps_inputs_witness :
  exists r w',
    sample_run rt_spam keyed_settings = (Ok r, w')
    /\ dict_get r (lit "email_id") = Some (VStr sample_email_id).
Proof.
  eexists. eexists. split; [reflexivity|].
  eapply (proj2 (@classify_email_keeps_inputs rt_spam keyed_settings)
            sample_email_id sample_subject sample_body sample_sender
            initial_world).
  reflexivity.
Defined.

(** X9, at a run through both nodes. *)
Lemma result_stage_tells_the_run_witness :
  exists r w',
    sample_run rt_unsure_then_prose keyed_settings = (Ok r, w')
    /\ exists stage f,
         dict_get r (lit "processing_stage") = Some (VStr stage)
         /\ dict_get r (lit "confidence") = Some (VFloat f)
         /\ ((In stage [lit "classified"; lit "error_json_parse"; lit "error"]
              /\ SFltb f (low_confidence_threshold keyed_settings) = false
              /\ llm_calls w' = S (llm_calls initial_world)
              /\ visited w' = lit "classify" :: visited initial_world)
             \/ (In stage [lit "reanalyzed"; lit "reanalysis_failed"]
                 /\ llm_calls w' = S (S (llm_calls initial_world))
                 /\ visited w'
                    = lit "reanalyze" :: lit "classify"
                      :: visited initial_world)).
Proof.
  eexists. eexists. split; [reflexivity|].
  eapply (@result_stage_tells_the_run rt_unsure_then_prose keyed_settings
            sample_email_id sample_subject sample_body sample_sender
            initial_world).
  reflexivity.
Defined.

(** X10, at a run whose first answer is prose. *)
Lemma failed_classification_is_retried_witness :
  exists r w',
    sample_run rt_prose keyed_settings = (Ok r, w')
    /\ exists stage,
         dict_get r (lit "processing_stage") = Some (VStr stage)
         /\ In stage [lit "classified"; lit "reanalyzed";
                      lit "reanalysis_failed"].
Proof.
  eexists. eexists. split; [reflexivity|].
  eapply (proj2 (@failed_classification_is_retried rt_prose keyed_settings)
            eq_refl
            sample_email_id sample_subject sample_body sample_sender
            initial_world).
  reflexivity.
Defined.

(** X11, at a state whose confidence is not a number. *)
Lemma nan_confidence_is_not_retried_witness :
  should_reanalyze keyed_settings nan_state <> lit "reanalyze"
  /\ route (rt := rt_spam) keyed_settings nan_state = Ok None.
Proof.
  apply (@nan_confidence_is_not_retried rt_spam keyed_settings nan_state).
  left. reflexivity.
Defined.


(** X13, at the sample state with a model that answers in prose. *)
Lemma reanalyze_node_cases_witness :
  reanalysis_fails (H := rt_prose)
    (ainvoke (Runtime := rt_prose) keyed_llm (llm_calls initial_world)
       (reanalyze_messages (H := rt_prose) unsure_state))
  /\ reanalyze_node (rt := rt_prose) keyed_settings unsure_state initial_world
     = (Ok (updated unsure_state (category unsure_state)
              (confidence unsure_state) (reasoning unsure_state)
              (keywords unsure_state) (retry_count unsure_state + 1)
              (lit "reanalysis_failed")), called initial_world).
Proof.
  destruct (@reanalyze_node_cases rt_prose keyed_settings keyed_llm
              unsure_state initial_world eq_refl)
    as [(c & f & r & k & _ & H) | H].
  - discriminate H.
  - exact H.
Defined.

(** X14, at the sample run. *)
Lemma confident_answer_is_returned_witness :
  sample_run rt_spam keyed_settings
  = (Ok (result_dict sample_email_id (VStr (lit "spam")) f0_95
           (VStr (lit "Obvious spam")) (VList [VStr (lit "scam")])
           (lit "classified")),
     called (entered (lit "classify") initial_world)).
Proof.
  apply (@confident_answer_is_returned rt_spam keyed_settings
           sample_email_id sample_subject sample_body sample_sender
           initial_world keyed_llm).
  - reflexivity.
  - exists {| content := VStr spam_text |}, spam_text,
      [ (lit "category", VStr (lit "spam"));
        (lit "confidence", VFloat f0_95);
        (lit "reasoning", VStr (lit "Obvious spam"));
        (lit "keywords", VList [VStr (lit "scam")]) ],
      (VFloat f0_95).
    split; [reflexivity|]. split; [reflexivity|]. split; [reflexivity|].
    split; [reflexivity|]. split; [left; reflexivity|].
    split; [reflexivity|]. split; [reflexivity|]. split; reflexivity.
  - reflexivity.
Defined.

(** X15, at a run whose model is first unsure and then sure. *)
Lemma unsure_answer_is_reanalyzed_witness :
  sample_run rt_unsure_then_spam keyed_settings
  = (Ok (result_dict sample_email_id (VStr (lit "spam")) f0_95
           (VStr (lit "Obvious spam")) (VList [VStr (lit "scam")])
           (lit "reanalyzed")),
     called (entered (lit "reanalyze")
               (called (entered (lit "classify") initial_world)))).
Proof.
  assert (accepts (H := rt_unsure_then_spam)
            (ainvoke (Runtime := rt_unsure_then_spam) keyed_llm
               (llm_calls initial_world)
               (classify_messages
                  (initial_state sample_email_id sample_subject sample_body
                     sample_sender)))
            (VStr (lit "neutral")) f0_3 (VStr (lit "Unclear")) (VList []))
    as Hfirst.
  { exists {| content := VStr unsure_text |}, unsure_text,
      [ (lit "category", VStr (lit "neutral"));
        (lit "confidence", VFloat f0_3);
        (lit "reasoning", VStr (lit "Unclear"));
        (lit "keywords", VList []) ],
      (VFloat f0_3).
    split; [reflexivity|]. split; [reflexivity|]. split; [reflexivity|].
    split; [reflexivity|]. split; [right; right; reflexivity|].
    split; [reflexivity|]. split; [reflexivity|]. split; reflexivity. }
  apply (proj1 (@unsure_answer_is_reanalyzed rt_unsure_then_spam
                  keyed_settings
                  sample_email_id sample_subject sample_body sample_sender
                  initial_world keyed_llm
                  (VStr (lit "neutral")) f0_3 (VStr (lit "Unclear"))
                  (VList []) eq_refl Hfirst eq_refl)).
  exists {| content := VStr spam_text |}, spam_text,
    [ (lit "category", VStr (lit "spam"));
      (lit "confidence", VFloat f0_95);
      (lit "reasoning", VStr (lit "Obvious spam"));
      (lit "keywords", VList [VStr (lit "scam")]) ],
    (VFloat f0_95).
  split; [reflexivity|]. split; [reflexivity|]. split; [reflexivity|].
  split; [reflexivity|]. split; [left; reflexivity|].
  split; [reflexivity|]. split; [reflexivity|]. split; reflexivity.
Defined.

(** X16, at the sample request without an API key. *)
Lemma classify_endpoint_answers_witness :
  classify_endpoint (rt := rt_spam) default_settings
    sample_ClassifyResponse_init sample_request initial_world
  = (RaisesHTTPException 500
       (lit "API key for provider 'gemini' not found. Please set GEMINI_API_KEY in your .env file"),
     entered (lit "classify") initial_world).
Proof.
  apply (proj1 (@classify_endpoint_answers rt_spam default_settings
                  sample_ClassifyResponse_init sample_request initial_world)
           (ValueError
              (lit "API key for provider 'gemini' not found. Please set GEMINI_API_KEY in your .env file"))).
  reflexivity.
Defined.

(** X17, at a body of 1000 characters and the same body with more text. *)
Lemma classification_reads_body_prefix_witness :
  exists r w',
    classify_email (rt := rt_spam) keyed_settings sample_email_id
      sample_subject long_body sample_sender initial_world = (Ok r, w')
    /\ classify_email (rt := rt_spam) keyed_settings sample_email_id
         sample_subject (long_body ++ more_text) sample_sender initial_world
       = (Ok r, w').
Proof.
  eexists. eexists. split; [reflexivity|].
  apply (@classification_reads_body_prefix rt_spam keyed_settings
           sample_email_id sample_subject long_body more_text sample_sender
           initial_world).
  - unfold long_body. rewrite repeat_length. apply le_n.
  - reflexivity.
  - reflexivity.
Defined.

(** C2, witness: a model whose every accepted answer reports a
    confidence in range; the caller receives a confidence in range. *)
Lemma confidence_in_range_when_reported_in_range_witness :
  exists r w',
    sample_run rt_spam keyed_settings = (Ok r, w')
    /\ exists f,
         dict_get r (lit "confidence") = Some (VFloat f)
         /\ in_unit_interval f = true.
Proof.
  assert (forall llm n messages c f r k,
             get_llm (rt := rt_spam) keyed_settings = Ok llm ->
             accepts (H := rt_spam)
               (ainvoke (Runtime := rt_spam) llm n messages) c f r k ->
             in_unit_interval f = true) as Hmodel.
  { intros llm n messages c f r k _
      (response & text & items & x & H1 & Ht & Hv & _ & _ & Hx & Hf & _).
    destruct n as [|n]; [|destruct n; discriminate H1].
    injection H1 as <-. injection Ht as <-.
    vm_compute in Hv. injection Hv as <-.
    vm_compute in Hx. injection Hx as <-.
    vm_compute in Hf. injection Hf as <-. reflexivity. }
  eexists. eexists. split; [reflexivity|].
  eapply (proj2 (proj2 (proj2 (proj2
                                 (@confidence_in_range_when_reported_in_range
                                    rt_spam keyed_settings)) Hmodel))
            sample_email_id sample_subject sample_body sample_sender
            initial_world).
  reflexivity.
Defined.
